(** * PremierPredictionTool: the simulation approach

    A shallow embedding of [ModelScriptsForCLI/simulation_approach.py]:
    the recency weighting of seasons, the per-team aggregation, the
    single-match classifier [simulate_match], the head-to-head predictor
    [simulate_head_to_head], the Monte-Carlo season simulator
    [simulate_season], the two reports [analyze_home_away] and
    [show_matches] and the command-line block; and of the menu of
    [cli_script.py] that calls the script.

    Conventions of the embedding.
    - Python and numpy floating-point numbers are read as exact rationals
      ([Q], compared with [==]); the literals [0.2], [0.01], [1/3] are the
      rationals they denote.  Rounding, infinities and NaN are outside the
      model.
    - A Python exception is a value of [exn]; code that may raise returns a
      [result].
    - The global numpy generator is an explicit [RandomState] threaded
      through every function that may draw from it.  Python's own generator,
      used once by [show_matches], is the rearrangement it makes of a list.
    - The module-level globals [data], [team_performance] and
      [team_stats_dict] are explicit arguments. *)

From Stdlib Require Import QArith Qabs Qminmax Lqa Lia Permutation Sorted.
From stdpp Require Import gmap strings list.

Local Open Scope Q_scope.

(** ** Exceptions and results *)

Inductive exn : Type :=
  | KeyError (key : string)
  | IndexError
  | TypeError
  | ValueError
  | ZeroDivisionError.

Inductive result (A : Type) : Type :=
  | Ok (a : A)
  | Raise (e : exn).

Arguments Ok {A} a.
Arguments Raise {A} e.

Definition rbind {A B} (r : result A) (k : A -> result B) : result B :=
  match r with
  | Ok a => k a
  | Raise e => Raise e
  end.

(** ** The numpy generator

    [random_sample] of numpy's legacy generator takes 53 random bits [k] and
    returns [k / 2^53], a number in the half-open interval from 0 to 1.  The
    bits come from [bits], a sequence indexed by the number of draws made. *)

Record RandomState : Type := mkRandomState {
  bits : nat -> N;
  cursor : nat
}.

Definition two53 : positive := Eval cbv in (2 ^ 53)%positive.

Definition uniform01 (k : N) : Q := Z.of_N (k mod Npos two53) # two53.

Definition advance (rs : RandomState) : RandomState :=
  {| bits := bits rs; cursor := S (cursor rs) |}.

Definition next_uniform (rs : RandomState) : Q := uniform01 (bits rs (cursor rs)).

(** Code that may raise and may draw random numbers. *)

Definition M (A : Type) : Type := RandomState -> result (A * RandomState).

Definition ret {A} (a : A) : M A := fun rs => Ok (a, rs).

Definition bind {A B} (m : M A) (k : A -> M B) : M B :=
  fun rs =>
    match m rs with
    | Ok (a, rs') => k a rs'
    | Raise e => Raise e
    end.

Definition raise {A} (e : exn) : M A := fun _ => Raise e.

Definition lift {A} (r : result A) : M A :=
  fun rs => match r with Ok a => Ok (a, rs) | Raise e => Raise e end.

Definition random_sample : M Q := fun rs => Ok (next_uniform rs, advance rs).

Notation "'let!' x ':=' m 'in' k" := (bind m (fun x => k))
  (at level 10, x name, m at level 100, k at level 200).

(** Python comparisons on numbers. *)

Definition Qlt_bool (x y : Q) : bool := negb (Qle_bool y x).

(** ** [np.random.choice(a, p=p)]

    numpy rejects an empty [a], a probability vector of the wrong size, with
    a negative entry, or whose sum is not 1.  Otherwise it builds the
    cumulative sums of [p], divides them by the last one, draws one uniform
    number [u], and returns the entry of [a] at the position of the first
    cumulative sum that exceeds [u] ([searchsorted] with [side='right']). *)

Fixpoint cumsum_from (acc : Q) (p : list Q) : list Q :=
  match p with
  | [] => []
  | x :: p' => (acc + x) :: cumsum_from (acc + x) p'
  end.

Definition cumsum (p : list Q) : list Q := cumsum_from 0 p.

Definition Qsum (p : list Q) : Q := fold_right Qplus 0 p.

Fixpoint searchsorted_right (cdf : list Q) (u : Q) : nat :=
  match cdf with
  | [] => O
  | c :: cdf' => if Qle_bool c u then S (searchsorted_right cdf' u) else O
  end.

Definition np_random_choice {A} (a : list A) (p : list Q) : M A :=
  if Nat.eqb (length a) 0 then raise ValueError
  else if negb (Nat.eqb (length a) (length p)) then raise ValueError
  else if existsb (fun x => Qlt_bool x 0) p then raise ValueError
  else if negb (Qeq_bool (Qsum p) 1) then raise ValueError
  else
    let cdf := cumsum p in
    let cdf := map (fun c => c / List.last cdf 0) cdf in
    let! uniform_sample := random_sample in
    match nth_error a (searchsorted_right cdf uniform_sample) with
    | Some x => ret x
    | None => raise IndexError
    end.

(** ** Team profiles and match outcomes *)

(** One value of [team_stats_dict]: the inner dictionary with the keys
    ["Attack_Strength"], ["Defense_Strength"] and ["Win_Rate"]. *)
Record Stats : Type := mkStats {
  Attack_Strength : Q;
  Defense_Strength : Q;
  Win_Rate : Q
}.

(** The three results of a match; the source writes them as the strings
    ["H"], ["D"] and ["A"]. *)
Inductive Outcome : Type := HomeWin | Draw | AwayWin.

Definition outcome_label (o : Outcome) : string :=
  match o with
  | HomeWin => "H"
  | Draw => "D"
  | AwayWin => "A"
  end.

Definition Outcome_eqb (a b : Outcome) : bool :=
  match a, b with
  | HomeWin, HomeWin | Draw, Draw | AwayWin, AwayWin => true
  | _, _ => false
  end.

(** [d[key]] on a dictionary. *)
Definition getitem {V} (d : gmap string V) (key : string) : result V :=
  match d !! key with
  | Some v => Ok v
  | None => Raise (KeyError key)
  end.

(** [key not in d]. *)
Definition not_in {V} (key : string) (d : gmap string V) : bool :=
  match d !! key with
  | Some _ => false
  | None => true
  end.

(** [d[team][field]] on [team_stats_dict]. *)
Definition stat (d : gmap string Stats) (team : string) (field : Stats -> Q) : result Q :=
  rbind (getitem d team) (fun s => Ok (field s)).

(** The signed strength differential of [simulate_match]. *)
Definition home_advantage_of (home_attack away_attack home_defense away_defense : Q) : Q :=
  (home_attack + away_defense) - (away_attack + home_defense).

Definition classify (home_advantage : Q) : Outcome :=
  if Qlt_bool (2 # 10) home_advantage then HomeWin
  else if Qlt_bool home_advantage (- (2 # 10)) then AwayWin
  else Draw.

Definition simulate_match (team_stats_dict : gmap string Stats)
    (home_team away_team : string) : M Outcome :=
  if not_in home_team team_stats_dict || not_in away_team team_stats_dict then
    np_random_choice [HomeWin; Draw; AwayWin] [1 # 3; 1 # 3; 1 # 3]
  else
    let! home_attack := lift (stat team_stats_dict home_team Attack_Strength) in
    let! away_attack := lift (stat team_stats_dict away_team Attack_Strength) in
    let! home_defense := lift (stat team_stats_dict home_team Defense_Strength) in
    let! away_defense := lift (stat team_stats_dict away_team Defense_Strength) in
    let home_advantage := home_advantage_of home_attack away_attack home_defense away_defense in
    ret (classify home_advantage).

(** ** Printed output

    Each constructor stands for one [print] call of the source; the numbers
    and names it carries are the values interpolated into the text. *)

Inductive line : Type :=
  | MsgColumnsMissing                           (* "ERROR: Columns `GF` or `Pld` missing in dataset!" *)
  | MsgTeamsDoNotExist                          (* "One or both teams do not exist in the dataset." *)
  | MsgHeadToHead (team1 team2 : string)        (* "Head-to-Head Prediction: team1 vs team2" *)
  | MsgStrength (team : string) (strength : Q)  (* "team Strength: x" *)
  | MsgMoreLikelyToWin (team : string)          (* "team is more likely to win!" *)
  | MsgLikelyDraw (team1 team2 : string)        (* "The match between team1 and team2 is likely to end in a DRAW." *)
  | MsgStandings (table : list (string * Q))    (* "Predicted Premier League Standings:" and the table *)
  | MsgNotInTop10 (team : string).              (* "team is not in the top 10." *)

(** ** Head-to-head prediction *)

(** Python's [max(a, b)]: the first argument unless the second is greater. *)
Definition py_max (a b : Q) : Q := if Qlt_bool a b then b else a.

(** [total_strength], with the guard against a zero denominator. *)
Definition total_strength_of (team1_strength team2_strength : Q) : Q :=
  let total_strength := Qabs team1_strength + Qabs team2_strength in
  if Qeq_bool total_strength 0 then 1 # 100 else total_strength.

(** The probabilities before they are normalized, in the order
    [(team1_prob, draw_prob, team2_prob)]. *)
Definition raw_probabilities (team1_strength team2_strength : Q) : Q * Q * Q :=
  let total_strength := total_strength_of team1_strength team2_strength in
  let team1_prob := Qabs team1_strength / total_strength in
  let team2_prob := Qabs team2_strength / total_strength in
  let draw_prob := py_max (1 - (team1_prob + team2_prob)) (2 # 10) in
  (team1_prob, draw_prob, team2_prob).

(** "Normalize to make sure they sum to 1". *)
Definition normalize (probs : Q * Q * Q) : Q * Q * Q :=
  let '(team1_prob, draw_prob, team2_prob) := probs in
  let total_prob := team1_prob + team2_prob + draw_prob in
  (team1_prob / total_prob, draw_prob / total_prob, team2_prob / total_prob).

(** The local variables of [simulate_head_to_head] when it reaches its end. *)
Record HeadToHead : Type := mkHeadToHead {
  team1_strength : Q;
  team2_strength : Q;
  team1_prob : Q;
  draw_prob : Q;
  team2_prob : Q;
  result_drawn : Outcome
}.

(** The function prints and returns nothing; the model returns what it
    printed, and its locals when it ran to the end. *)
Definition simulate_head_to_head (team_stats_dict : gmap string Stats)
    (team1 team2 : string) : M (list line * option HeadToHead) :=
  if not_in team1 team_stats_dict || not_in team2 team_stats_dict then
    ret ([MsgTeamsDoNotExist], None)
  else
    let! a1 := lift (stat team_stats_dict team1 Attack_Strength) in
    let! d2 := lift (stat team_stats_dict team2 Defense_Strength) in
    let team1_strength := a1 - d2 in
    let! a2 := lift (stat team_stats_dict team2 Attack_Strength) in
    let! d1 := lift (stat team_stats_dict team1 Defense_Strength) in
    let team2_strength := a2 - d1 in
    let '(team1_prob, draw_prob, team2_prob) :=
      normalize (raw_probabilities team1_strength team2_strength) in
    let! result := np_random_choice [HomeWin; Draw; AwayWin]
                                    [team1_prob; draw_prob; team2_prob] in
    let verdict :=
      match result with
      | HomeWin => MsgMoreLikelyToWin team1
      | Draw => MsgLikelyDraw team1 team2
      | AwayWin => MsgMoreLikelyToWin team2
      end in
    ret ([MsgHeadToHead team1 team2;
          MsgStrength team1 team1_strength;
          MsgStrength team2 team2_strength;
          verdict],
         Some (mkHeadToHead team1_strength team2_strength
                            team1_prob draw_prob team2_prob result)).

(** ** Loops *)

(** [for x in xs: body], threading the variables the body updates. *)
Fixpoint for_each {A S} (xs : list A) (body : A -> S -> M S) (s : S) : M S :=
  match xs with
  | [] => ret s
  | x :: xs' => let! s' := body x s in for_each xs' body s'
  end.

(** [for _ in range(n): body]. *)
Fixpoint for_range {S} (n : nat) (body : S -> M S) (s : S) : M S :=
  match n with
  | O => ret s
  | S n' => let! s' := body s in for_range n' body s'
  end.

(** ** Dictionaries whose order matters

    [standings] and [final_rankings] are iterated and sorted, so they are
    kept as lists of items in insertion order. *)

Fixpoint dict_get {V} (d : list (string * V)) (key : string) : result V :=
  match d with
  | [] => Raise (KeyError key)
  | (k, v) :: d' => if String.eqb k key then Ok v else dict_get d' key
  end.

(** [d[key] = v]: overwrite in place, or append a new item. *)
Fixpoint dict_set {V} (d : list (string * V)) (key : string) (v : V) : list (string * V) :=
  match d with
  | [] => [(key, v)]
  | (k, w) :: d' =>
      if String.eqb k key then (k, v) :: d' else (k, w) :: dict_set d' key v
  end.

(** [{team: v for team in teams}]. *)
Definition dict_from_keys {V} (teams : list string) (v : V) : list (string * V) :=
  fold_left (fun d team => dict_set d team v) teams [].

(** ** One simulated season *)

(** [standings[team] += n]. *)
Definition add_points (standings : list (string * Z)) (team : string) (n : Z)
  : result (list (string * Z)) :=
  rbind (dict_get standings team) (fun pts => Ok (dict_set standings team (pts + n)%Z)).

(** The body of the two nested loops for one pair of distinct teams. *)
Definition play_match (team_stats_dict : gmap string Stats)
    (home_team away_team : string) (standings : list (string * Z))
  : M (list (string * Z)) :=
  let! result := simulate_match team_stats_dict home_team away_team in
  match result with
  | HomeWin => lift (add_points standings home_team 3)
  | Draw =>
      lift (rbind (add_points standings home_team 1)
                  (fun standings' => add_points standings' away_team 1))
  | AwayWin => lift (add_points standings away_team 3)
  end.

(** One pass of the [for _ in range(num_simulations)] loop up to the end of
    the nested loops: the standings of one simulated season. *)
Definition simulate_trial (team_stats_dict : gmap string Stats)
    (historical_teams : list string) : M (list (string * Z)) :=
  let standings := dict_from_keys historical_teams 0%Z in
  for_each historical_teams (fun home_team standings =>
    for_each historical_teams (fun away_team standings =>
      if negb (String.eqb home_team away_team) then
        play_match team_stats_dict home_team away_team standings
      else ret standings) standings) standings.

(** [sorted(items, key=lambda x: x[1], reverse=True)]: descending by points;
    the sort is stable, so items with equal points keep their order. *)
Fixpoint insert_desc (x : string * Z) (l : list (string * Z)) : list (string * Z) :=
  match l with
  | [] => [x]
  | y :: l' => if (snd x <? snd y)%Z then y :: insert_desc x l' else x :: y :: l'
  end.

Definition sorted_desc (items : list (string * Z)) : list (string * Z) :=
  fold_right insert_desc [] items.

(** [for rank, (team, points) in enumerate(sorted_teams):
       final_rankings[team].append(rank + 1)]. *)
Fixpoint record_ranks (rank : Z) (sorted_teams : list (string * Z))
    (final_rankings : list (string * list Z)) : result (list (string * list Z)) :=
  match sorted_teams with
  | [] => Ok final_rankings
  | (team, _) :: rest =>
      rbind (dict_get final_rankings team) (fun ranks =>
        record_ranks (rank + 1) rest
          (dict_set final_rankings team (ranks ++ [(rank + 1)%Z])))
  end.

(** The whole body of the loop over simulations. *)
Definition season_step (team_stats_dict : gmap string Stats)
    (historical_teams : list string) (final_rankings : list (string * list Z))
  : M (list (string * list Z)) :=
  let! standings := simulate_trial team_stats_dict historical_teams in
  let sorted_teams := sorted_desc standings in
  lift (record_ranks 0 sorted_teams final_rankings).

Definition num_simulations : nat := 1000.

(** [np.mean(ranks)]. *)
Definition np_mean (ranks : list Z) : Q :=
  inject_Z (fold_right Z.add 0%Z ranks) / inject_Z (Z.of_nat (length ranks)).

(** [sort_values(by="Avg Position")], ascending.  pandas does not promise
    the order of rows with equal averages; the model keeps them in their
    original order. *)
Fixpoint insert_asc (x : string * Q) (l : list (string * Q)) : list (string * Q) :=
  match l with
  | [] => [x]
  | y :: l' => if Qlt_bool (snd y) (snd x) then y :: insert_asc x l' else x :: y :: l'
  end.

Definition sort_values (df : list (string * Q)) : list (string * Q) :=
  fold_right insert_asc [] df.

(** The frame of average positions, one row per key of [final_rankings]. *)
Definition average_positions (final_rankings : list (string * list Z)) : list (string * Q) :=
  map (fun '(team, ranks) => (team, np_mean ranks)) final_rankings.

(** [simulate_season] from the list of teams on: the simulations, the table
    of average positions, and what is printed. *)
Definition simulate_season_of (team_stats_dict : gmap string Stats)
    (historical_teams : list string) (team_name : string) : M (list line) :=
  let final_rankings := dict_from_keys historical_teams ([] : list Z) in
  let! final_rankings :=
    for_range num_simulations (season_step team_stats_dict historical_teams)
              final_rankings in
  let final_rankings_df := average_positions final_rankings in
  let final_rankings_df := firstn 10 (sort_values final_rankings_df) in
  ret (MsgStandings final_rankings_df ::
       if negb (existsb (String.eqb team_name) (map fst final_rankings_df))
       then [MsgNotInTop10 team_name] else []).

(** ** Data frames

    A column holds numbers or strings, as pandas types the columns of a CSV
    file; a frame is the list of its named columns, in order.  Missing
    values are outside the model. *)

Inductive Series : Type :=
  | NumCol (v : list Q)
  | StrCol (v : list string).

(** [df[name]] is [dict_get df name], [df[name] = s] is [dict_set df name s]. *)
Definition has_column (name : string) (df : list (string * Series)) : bool :=
  existsb (String.eqb name) (map fst df).

Definition numbers (s : Series) : result (list Q) :=
  match s with
  | NumCol v => Ok v
  | StrCol [] => Ok []
  | StrCol _ => Raise TypeError
  end.

Definition strings (s : Series) : result (list string) :=
  match s with
  | StrCol v => Ok v
  | NumCol [] => Ok []
  | NumCol _ => Raise TypeError
  end.

(** Boolean indexing: the entries at which the mask is [True]. *)
Fixpoint select {A} (mask : list bool) (v : list A) : list A :=
  match mask, v with
  | b :: mask', x :: v' => if b then x :: select mask' v' else select mask' v'
  | _, _ => []
  end.

Definition select_series (mask : list bool) (s : Series) : Series :=
  match s with
  | NumCol v => NumCol (select mask v)
  | StrCol v => StrCol (select mask v)
  end.

Definition select_rows (mask : list bool) (df : list (string * Series)) : list (string * Series) :=
  map (fun '(name, s) => (name, select_series mask s)) df.

(** The recency weight of a season: the lambda applied to [data["Season"]]. *)
Definition SeasonWeight (x : Q) : Q :=
  if Qlt_bool x 2015 then 1 else 1 + (x - 2015) / 5.

(** [np.average(a, weights=w)]. *)
Definition np_average (a w : Series) : result Q :=
  rbind (numbers a) (fun a =>
  rbind (numbers w) (fun w =>
    if negb (Nat.eqb (length a) (length w)) then Raise TypeError
    else
      let scl := Qsum w in
      if Qeq_bool scl 0 then Raise ZeroDivisionError
      else Ok (Qsum (map (fun '(x, y) => x * y) (combine a w)) / scl))).

(** The keys of [groupby]: the distinct values, sorted. *)
Fixpoint insert_key (k : string) (l : list string) : list string :=
  match l with
  | [] => [k]
  | y :: l' => if String.leb k y then k :: y :: l' else y :: insert_key k l'
  end.

Definition group_keys (teams : list string) : list string :=
  fold_right insert_key [] (List.nodup String.string_dec teams).

(** One row of [team_performance]: the [pd.Series] the lambda returns. *)
Record Performance : Type := mkPerformance {
  Weighted_Pts : Q; GF : Q; GA : Q; GD : Q; W : Q; D : Q; L : Q; Pld : Q
}.

Definition weighted (x : list (string * Series)) (column : string) : result Q :=
  rbind (dict_get x column) (fun a =>
  rbind (dict_get x "SeasonWeight") (fun w => np_average a w)).

Definition performance_of_group (x : list (string * Series)) : result Performance :=
  rbind (weighted x "Pts") (fun pts =>
  rbind (weighted x "GF") (fun gf =>
  rbind (weighted x "GA") (fun ga =>
  rbind (weighted x "GD") (fun gd =>
  rbind (weighted x "W") (fun w =>
  rbind (weighted x "D") (fun d =>
  rbind (weighted x "L") (fun l =>
  rbind (weighted x "Pld") (fun pld =>
    Ok (mkPerformance pts gf ga gd w d l pld))))))))).

Fixpoint map_result {A B} (f : A -> result B) (l : list A) : result (list B) :=
  match l with
  | [] => Ok []
  | x :: l' => rbind (f x) (fun y => rbind (map_result f l') (fun ys => Ok (y :: ys)))
  end.

(** [data.groupby("Team").apply(...).reset_index()].  The keys are the
    values of the [Team] column, which the model requires to be strings.
    With no rows there is no group: pandas 2 then returns an empty frame
    with the columns of [data], and [reset_index] cannot insert [Team] a
    second time. *)
Definition groupby_apply (data : list (string * Series)) : result (list (string * Series)) :=
  rbind (dict_get data "Team") (fun team_column =>
  rbind (strings team_column) (fun teams =>
    match group_keys teams with
    | [] => Raise ValueError
    | keys =>
        rbind (map_result (fun key =>
                 performance_of_group (select_rows (map (String.eqb key) teams) data))
               keys) (fun rows =>
          Ok [("Team", StrCol keys);
              ("Weighted_Pts", NumCol (map Weighted_Pts rows));
              ("GF", NumCol (map GF rows));
              ("GA", NumCol (map GA rows));
              ("GD", NumCol (map GD rows));
              ("W", NumCol (map W rows));
              ("D", NumCol (map D rows));
              ("L", NumCol (map L rows));
              ("Pld", NumCol (map Pld rows))])
    end)).

(** Element-wise division of two columns of one frame.  Where pandas
    yields an infinity or NaN for a zero denominator the model has 0. *)
Definition series_div (a b : Series) : result Series :=
  rbind (numbers a) (fun a =>
  rbind (numbers b) (fun b =>
    Ok (NumCol (map (fun '(x, y) => x / y) (combine a b))))).

Definition column_ratio (df : list (string * Series)) (num den : string) : result Series :=
  rbind (dict_get df num) (fun a =>
  rbind (dict_get df den) (fun b => series_div a b)).

(** [set_index("Team")[[...]].to_dict(orient="index")]. *)
Fixpoint zip_stats (teams : list string) (a d w : list Q) : list (string * Stats) :=
  match teams, a, d, w with
  | t :: teams', x :: a', y :: d', z :: w' => (t, mkStats x y z) :: zip_stats teams' a' d' w'
  | _, _, _, _ => []
  end.

Definition to_dict (team_performance : list (string * Series)) : result (gmap string Stats) :=
  rbind (dict_get team_performance "Team") (fun t =>
  rbind (strings t) (fun teams =>
  rbind (dict_get team_performance "Attack_Strength") (fun a =>
  rbind (numbers a) (fun a =>
  rbind (dict_get team_performance "Defense_Strength") (fun d =>
  rbind (numbers d) (fun d =>
  rbind (dict_get team_performance "Win_Rate") (fun w =>
  rbind (numbers w) (fun w =>
    Ok (list_to_map (zip_stats teams a d w)))))))))).

(** The globals the module defines when it is loaded. *)
Record Globals : Type := mkGlobals {
  data : list (string * Series);
  team_performance : list (string * Series);
  team_stats_dict : gmap string Stats
}.

(** The module-level code, from the frame read from the standings file to
    [team_stats_dict]: what it prints and the globals it leaves. *)
Definition load_module (csv : list (string * Series)) : result (list line * Globals) :=
  rbind (dict_get csv "Season") (fun season =>
  rbind (numbers season) (fun season =>
    let data := dict_set csv "SeasonWeight" (NumCol (map SeasonWeight season)) in
    rbind (groupby_apply data) (fun team_performance =>
    rbind
      (if has_column "GF" team_performance && has_column "Pld" team_performance then
         rbind (column_ratio team_performance "GF" "Pld") (fun attack =>
           let team_performance := dict_set team_performance "Attack_Strength" attack in
           rbind (column_ratio team_performance "GA" "Pld") (fun defense =>
             let team_performance := dict_set team_performance "Defense_Strength" defense in
             rbind (column_ratio team_performance "W" "Pld") (fun win_rate =>
               Ok ([], dict_set team_performance "Win_Rate" win_rate))))
       else Ok ([MsgColumnsMissing], team_performance))
      (fun '(printed, team_performance) =>
         rbind (to_dict team_performance) (fun team_stats_dict =>
           Ok (printed, mkGlobals data team_performance team_stats_dict)))))).

(** [Series.max()]; an empty column has no maximum. *)
Definition series_max (v : list Q) : option Q :=
  match v with
  | [] => None
  | x :: v' => Some (fold_left (fun m y => if Qlt_bool m y then y else m) v' x)
  end.

(** The teams of the latest season, in the order of [team_performance]. *)
Definition historical_teams_of (g : Globals) : result (list string) :=
  rbind (dict_get (data g) "Season") (fun season =>
  rbind (numbers season) (fun season =>
    let latest_season := series_max season in
    let mask :=
      map (fun x => match latest_season with
                    | Some m => Qeq_bool x m
                    | None => false
                    end) season in
    rbind (dict_get (select_rows mask (data g)) "Team") (fun t =>
    rbind (strings t) (fun valid_teams =>
    rbind (dict_get (team_performance g) "Team") (fun t =>
    rbind (strings t) (fun teams =>
      Ok (List.filter (fun team => existsb (String.eqb team) valid_teams) teams))))))).

Definition simulate_season (g : Globals) (team_name : string) : M (list line) :=
  let! historical_teams := lift (historical_teams_of g) in
  simulate_season_of (team_stats_dict g) historical_teams team_name.

(** ** Vocabulary of the statements *)

(** The strength differential of a pair of profiles, home first. *)
Definition edge (home away : Stats) : Q :=
  home_advantage_of (Attack_Strength home) (Attack_Strength away)
                    (Defense_Strength home) (Defense_Strength away).

(** The values of the uniform draw for which the fallback of
    [simulate_match] yields a given outcome: from the first bound up to, but
    not including, the second. *)
Definition fallback_interval (o : Outcome) : Q * Q :=
  match o with
  | HomeWin => (0, 1 # 3)
  | Draw => (1 # 3, 2 # 3)
  | AwayWin => (2 # 3, 1)
  end.

(** The matches of one season in the order the nested loops reach them:
    every pair of a home team and a different away team. *)
Definition fixtures (teams : list string) : list (string * string) :=
  flat_map (fun home_team =>
              map (pair home_team)
                  (List.filter (fun away_team => negb (String.eqb home_team away_team)) teams))
           teams.

(** The results of a list of matches, played in order. *)
Fixpoint play_all (team_stats_dict : gmap string Stats)
    (matches : list (string * string)) : M (list Outcome) :=
  match matches with
  | [] => ret []
  | (home_team, away_team) :: rest =>
      let! result := simulate_match team_stats_dict home_team away_team in
      let! results := play_all team_stats_dict rest in
      ret (result :: results)
  end.

(** The 3/1/0 rule: the points one match is worth to one team. *)
Definition points_for (team : string) (played : string * string * Outcome) : Z :=
  let '(home_team, away_team, result) := played in
  match result with
  | HomeWin => if String.eqb team home_team then 3 else 0
  | Draw => (if String.eqb team home_team then 1 else 0)
            + (if String.eqb team away_team then 1 else 0)
  | AwayWin => if String.eqb team away_team then 3 else 0
  end%Z.

Definition points_of (team : string) (played : list (string * string * Outcome)) : Z :=
  fold_right Z.add 0%Z (map (points_for team) played).

Definition drawn_matches (results : list Outcome) : Z :=
  Z.of_nat (length (List.filter (Outcome_eqb Draw) results)).

Definition decisive_matches (results : list Outcome) : Z :=
  Z.of_nat (length (List.filter (fun o => negb (Outcome_eqb Draw o)) results)).

(** The sum of all points of a tally. *)
Definition total_points (standings : list (string * Z)) : Z :=
  fold_right Z.add 0%Z (map snd standings).

(** What holds of [final_rankings] after [k] simulated seasons: its keys are
    the teams, and every team has [k] ranks, each between 1 and the number
    of teams. *)
Definition rankings_after (teams : list string) (k : nat)
    (final_rankings : list (string * list Z)) : Prop :=
  map fst final_rankings = teams /\
  forall t, In t teams ->
    exists ranks,
      dict_get final_rankings t = Ok ranks /\
      length ranks = k /\
      Forall (fun x => 1 <= x <= Z.of_nat (length teams))%Z ranks.

(** The columns the module reads from the standings file. *)
Definition required_columns : list string :=
  ["Season"; "Team"; "Pts"; "GF"; "GA"; "GD"; "W"; "D"; "L"; "Pld"].

(** Standings of three teams over three seasons, and the same records
    without the column of matches played. *)
Definition standings_sample : list (string * Series) :=
  [("Season", NumCol [2014; 2014; 2016; 2016; 2020; 2020]);
   ("Team", StrCol ["B"; "A"; "A"; "B"; "A"; "C"]);
   ("Pts", NumCol [50; 60; 70; 40; 80; 30]);
   ("GF", NumCol [40; 50; 60; 30; 70; 20]);
   ("GA", NumCol [40; 30; 20; 50; 10; 60]);
   ("GD", NumCol [0; 20; 40; -20; 60; -40]);
   ("W", NumCol [10; 20; 25; 8; 30; 5]);
   ("D", NumCol [10; 8; 5; 10; 4; 5]);
   ("L", NumCol [18; 10; 8; 20; 4; 28]);
   ("Pld", NumCol [38; 38; 38; 38; 38; 38])].

Definition standings_without_Pld : list (string * Series) :=
  List.filter (fun column => negb (String.eqb (fst column) "Pld")) standings_sample.

(** Standings of a league of eleven teams over one season, and the globals
    the module defines from them. *)
Definition standings_eleven : list (string * Series) :=
  [("Season", NumCol [2020; 2020; 2020; 2020; 2020; 2020; 2020; 2020; 2020; 2020; 2020]);
   ("Team", StrCol ["T01"; "T02"; "T03"; "T04"; "T05"; "T06"; "T07"; "T08"; "T09"; "T10"; "T11"]);
   ("Pts", NumCol [90; 85; 80; 75; 70; 65; 60; 55; 50; 45; 40]);
   ("GF", NumCol [95; 90; 85; 80; 75; 70; 65; 60; 55; 50; 45]);
   ("GA", NumCol [30; 35; 40; 45; 50; 55; 60; 65; 70; 75; 80]);
   ("GD", NumCol [65; 55; 45; 35; 25; 15; 5; -5; -15; -25; -35]);
   ("W", NumCol [28; 26; 24; 22; 20; 18; 16; 14; 12; 10; 8]);
   ("D", NumCol [6; 7; 8; 9; 10; 11; 12; 13; 14; 15; 16]);
   ("L", NumCol [4; 5; 6; 7; 8; 9; 10; 11; 12; 13; 14]);
   ("Pld", NumCol [38; 38; 38; 38; 38; 38; 38; 38; 38; 38; 38])].

Definition globals_eleven : Globals :=
  match load_module standings_eleven with
  | Ok (_, g) => g
  | Raise _ => mkGlobals [] [] ∅
  end.

(** The scenario of two known teams: A attacks at 1.0 and defends at 0.5,
    B attacks and defends at 0.5. *)
Definition scenario_stats : gmap string Stats :=
  {[ "A" := mkStats 1 (1 # 2) 0; "B" := mkStats (1 # 2) (1 # 2) 0 ]}.

(** ** [analyze_home_away] *)

Inductive venue_line : Type :=
  | MsgTeamDataNotFound (team : string)   (* "Team data not found for team" *)
  | MsgBetterAtHome (team : string)       (* "team has a higher chance of winning at HOME" *)
  | MsgBetterAway (team : string).        (* "team has a higher chance of winning AWAY" *)

Definition analyze_home_away (team_stats_dict : gmap string Stats)
    (team_name : string) : list venue_line :=
  match team_stats_dict !! team_name with
  | None => [MsgTeamDataNotFound team_name]
  | Some team_stats =>
      let home_advantage := Attack_Strength team_stats - Defense_Strength team_stats in
      if Qlt_bool 0 home_advantage then [MsgBetterAtHome team_name]
      else [MsgBetterAway team_name]
  end.

(** ** [show_matches] *)

Inductive matches_line : Type :=
  | MsgGoalColumnsMissing
      (* "ERROR: Expected columns 'HomeGoals' and 'AwayGoals' not found in dataset!" *)
  | MsgLastMatches (team : string) (past_matches : list (string * Series))
      (* "Last 5 Matches for team:" and the table *)
  | MsgPredictedMatches (predictions : list (string * string * Outcome)).
      (* "Predicted Next 5 Matches for team:" and one row per prediction *)

(** [column == name], entry by entry; no number equals a name. *)
Definition series_eq (s : Series) (name : string) : list bool :=
  match s with
  | StrCol v => map (fun x => String.eqb x name) v
  | NumCol v => map (fun _ => false) v
  end.

(** [mask1 | mask2]. *)
Fixpoint mask_or (m1 m2 : list bool) : list bool :=
  match m1, m2 with
  | b1 :: m1', b2 :: m2' => (b1 || b2) :: mask_or m1' m2'
  | _, _ => []
  end.

(** [df[[c1, c2, ...]]]. *)
Definition select_columns (df : list (string * Series)) (names : list string)
  : result (list (string * Series)) :=
  map_result (fun name => rbind (dict_get df name) (fun s => Ok (name, s))) names.

(** [tail(n)]: the last [n] rows. *)
Definition lastn {A} (n : nat) (l : list A) : list A := skipn (length l - n) l.

Definition tail_series (n : nat) (s : Series) : Series :=
  match s with
  | NumCol v => NumCol (lastn n v)
  | StrCol v => StrCol (lastn n v)
  end.

Definition tail_rows (n : nat) (df : list (string * Series)) : list (string * Series) :=
  map (fun '(name, s) => (name, tail_series n s)) df.

(** [Series.unique()]: the distinct values in order of first appearance. *)
Fixpoint unique_from (seen : list string) (l : list string) : list string :=
  match l with
  | [] => []
  | x :: l' =>
      if existsb (String.eqb x) seen then unique_from seen l'
      else x :: unique_from (x :: seen) l'
  end.

Definition unique (l : list string) : list string := unique_from [] l.

(** [random.sample(population, k)] of Python's own generator: [k] entries at
    distinct positions of the population, in random order.  The state of
    that generator is represented by [shuffle], the rearrangement it would
    make of a list; the sample is the start of the rearranged population. *)
Definition random_sample_of (shuffle : list string -> list string)
    (population : list string) (k : nat) : result (list string) :=
  if Nat.ltb (length population) k then Raise ValueError
  else Ok (firstn k (shuffle population)).

(** The loop that predicts one match per opponent. *)
Fixpoint predict_all (team_stats_dict : gmap string Stats) (team_name : string)
    (future_opponents : list string) : M (list (string * string * Outcome)) :=
  match future_opponents with
  | [] => ret []
  | opponent :: rest =>
      let! result := simulate_match team_stats_dict team_name opponent in
      let! predictions := predict_all team_stats_dict team_name rest in
      ret ((team_name, opponent, result) :: predictions)
  end.

(** [show_matches], given the frame read from the matches file.  Completed
    matches are all the rows: missing values are outside the model, so
    [dropna] removes nothing.  The home column is required to hold names. *)
Definition show_matches (shuffle : list string -> list string)
    (team_stats_dict : gmap string Stats) (df : list (string * Series))
    (team_name : string) : M (list matches_line) :=
  if has_column "HomeGoals" df && has_column "AwayGoals" df then
    let goal_columns := ["HomeGoals"; "AwayGoals"] in
    let! home := lift (dict_get df "Home") in
    let! away := lift (dict_get df "Away") in
    let mask := mask_or (series_eq home team_name) (series_eq away team_name) in
    let! team_matches :=
      lift (select_columns (select_rows mask df) (["Date"; "Home"; "Away"] ++ goal_columns)) in
    let past_matches := tail_rows 5 team_matches in
    let! home := lift (dict_get df "Home") in
    let! possible_opponents := lift (strings home) in
    let possible_opponents := unique possible_opponents in
    let possible_opponents :=
      List.filter (fun team => negb (String.eqb team team_name)) possible_opponents in
    let! future_opponents := lift (random_sample_of shuffle possible_opponents 5) in
    let! predictions := predict_all team_stats_dict team_name future_opponents in
    ret [MsgLastMatches team_name past_matches; MsgPredictedMatches predictions]
  else ret [MsgGoalColumnsMissing].

(** ** The command line of the worker script *)

Inductive main_line : Type :=
  | MsgNoArguments     (* "No team or analysis option provided. Please provide both as arguments." *)
  | MsgRunningAnalysis (team_name analysis_type : string)
                       (* "Running Analysis for: team (type)..." *)
  | MsgNoOpponent      (* "No opponent provided for head-to-head analysis." *)
  | MsgInvalidOption.  (* "Invalid analysis option. Please restart and enter a valid option." *)

(** Everything the script may print, by the function that prints it. *)
Inductive printed_line : Type :=
  | FromMain (l : main_line)
  | FromHomeAway (l : venue_line)
  | FromMatches (l : matches_line)
  | FromSimulation (l : line).

(** The block run when the script is called from the command line, after
    the module-level code has run: what is printed and the exit status
    ([sys.exit(1)] gives 1, reaching the end gives 0). *)
Definition main (shuffle : list string -> list string) (g : Globals)
    (matches_df : list (string * Series)) (argv : list string)
  : M (list printed_line * Z) :=
  match argv with
  | _ :: team_name :: analysis_type :: rest =>
      let header := FromMain (MsgRunningAnalysis team_name analysis_type) in
      if String.eqb analysis_type "home_away" then
        ret (header :: map FromHomeAway (analyze_home_away (team_stats_dict g) team_name), 0%Z)
      else if String.eqb analysis_type "matches" then
        let! out := show_matches shuffle (team_stats_dict g) matches_df team_name in
        ret (header :: map FromMatches out, 0%Z)
      else if String.eqb analysis_type "head_to_head" then
        match rest with
        | [] => ret ([header; FromMain MsgNoOpponent], 1%Z)
        | opponent_team :: _ =>
            let! out := simulate_head_to_head (team_stats_dict g) team_name opponent_team in
            ret (header :: map FromSimulation (fst out), 0%Z)
        end
      else if String.eqb analysis_type "league_standings" then
        let! out := simulate_season g team_name in
        ret (header :: map FromSimulation out, 0%Z)
      else ret ([header; FromMain MsgInvalidOption], 0%Z)
  | _ => ret ([FromMain MsgNoArguments], 1%Z)
  end.

(** ** The menu of [cli_script.py]

    One pass of the menu loop once the choice has been read and stripped:
    the command handed to [subprocess.run], or the complaint printed. *)

Inductive menu_step : Type :=
  | RunSubprocess (args : list string)
  | InvalidOpponent   (* "Invalid opponent selection. Please restart and choose a valid team." *)
  | InvalidChoice.    (* "Invalid choice. Please enter a valid option (1-4)." *)

Definition menu_choice (executable simulation_script_path : string)
    (unique_teams : list string) (team_name user_choice opponent_team : string)
  : menu_step :=
  if String.eqb user_choice "1" then
    RunSubprocess [executable; simulation_script_path; team_name; "home_away"]
  else if String.eqb user_choice "2" then
    RunSubprocess [executable; simulation_script_path; team_name; "matches"]
  else if String.eqb user_choice "3" then
    if negb (existsb (String.eqb opponent_team) unique_teams) then InvalidOpponent
    else RunSubprocess [executable; simulation_script_path; team_name;
                        "head_to_head"; opponent_team]
  else if String.eqb user_choice "4" then
    RunSubprocess [executable; simulation_script_path; team_name; "league_standings"]
  else InvalidChoice.

(** ** Vocabulary for the module-level code *)

(** The rows of one team: the group [x] the aggregation lambda receives. *)
Definition group_of (data : list (string * Series)) (teams : list string)
    (key : string) : list (string * Series) :=
  select_rows (map (String.eqb key) teams) data.

(** The three ratios kept in [team_stats_dict] for one row of
    [team_performance]. *)
Definition stats_of_performance (r : Performance) : Stats :=
  mkStats (GF r / Pld r) (GA r / Pld r) (W r / Pld r).

(** A standings frame as pandas reads it from a complete file: the names
    of the teams, and a numeric column with one entry per record for the
    season and for each statistic. *)
Definition well_formed_standings (csv : list (string * Series)) (teams : list string) : Prop :=
  teams <> [] /\
  dict_get csv "Team" = Ok (StrCol teams) /\
  forall c, In c ["Season"; "Pts"; "GF"; "GA"; "GD"; "W"; "D"; "L"; "Pld"] ->
    exists v, dict_get csv c = Ok (NumCol v) /\ length v = length teams.

(** ** Vocabulary for the season simulator *)

(** A result with the generator put back as it was. *)
Definition untouched {A} (r : result (A * RandomState)) (rs : RandomState)
  : result (A * RandomState) :=
  match r with
  | Ok (a, _) => Ok (a, rs)
  | Raise e => Raise e
  end.

(** A computation that never draws: whatever the generator, it gives the
    same answer and leaves the generator as it found it. *)
Definition draws_nothing {A} (m : M A) : Prop :=
  forall rs rs0, m rs = untouched (m rs0) rs.

(** The sum of all ranks recorded so far, over all teams. *)
Definition total_ranks (final_rankings : list (string * list Z)) : Z :=
  fold_right Z.add 0%Z (map (fun item => fold_right Z.add 0%Z (snd item)) final_rankings).

(** ** Vocabulary for the head-to-head predictor *)


(** ** Vocabulary for [show_matches] *)


(** A matches frame of seven matches among six teams. *)
Definition matches_sample : list (string * Series) :=
  [("Date", StrCol ["d1"; "d2"; "d3"; "d4"; "d5"; "d6"; "d7"]);
   ("Home", StrCol ["A"; "B"; "C"; "D"; "E"; "F"; "B"]);
   ("Away", StrCol ["B"; "A"; "A"; "A"; "A"; "A"; "C"]);
   ("HomeGoals", NumCol [1; 0; 2; 1; 3; 0; 2]);
   ("AwayGoals", NumCol [0; 0; 1; 1; 2; 4; 2])].

(** * Properties *)

(** ** Comparisons *)

Lemma Qlt_bool_iff x y : Qlt_bool x y = true <-> x < y.
Proof.
  unfold Qlt_bool. rewrite negb_true_iff.
  destruct (Qle_bool y x) eqn:E.
  - apply Qle_bool_iff in E. split; [discriminate | intros Hlt; lra].
  - split; [intros _ | reflexivity].
    destruct (Qlt_le_dec x y) as [Hlt | Hle]; [exact Hlt |].
    apply Qle_bool_iff in Hle. congruence.
Qed.

Lemma Qlt_bool_false x y : Qlt_bool x y = false <-> y <= x.
Proof.
  unfold Qlt_bool. rewrite negb_false_iff. apply Qle_bool_iff.
Qed.

Lemma Qlt_bool_spec x y : reflect (x < y) (Qlt_bool x y).
Proof.
  destruct (Qlt_bool x y) eqn:E; constructor.
  - now apply Qlt_bool_iff.
  - apply Qlt_bool_false in E. lra.
Qed.

Lemma classify_HomeWin e : classify e = HomeWin <-> 2 # 10 < e.
Proof.
  unfold classify.
  destruct (Qlt_bool_spec (2 # 10) e); [tauto |].
  destruct (Qlt_bool_spec e (- (2 # 10))); split; try discriminate; intros; lra.
Qed.

Lemma classify_AwayWin e : classify e = AwayWin <-> e < - (2 # 10).
Proof.
  unfold classify.
  destruct (Qlt_bool_spec (2 # 10) e).
  - split; [discriminate | intros; lra].
  - destruct (Qlt_bool_spec e (- (2 # 10))); [tauto |].
    split; [discriminate | intros; lra].
Qed.

Lemma classify_Draw e : classify e = Draw <-> - (2 # 10) <= e <= 2 # 10.
Proof.
  unfold classify.
  destruct (Qlt_bool_spec (2 # 10) e).
  - split; [discriminate | intros; lra].
  - destruct (Qlt_bool_spec e (- (2 # 10))).
    + split; [discriminate | intros; lra].
    + split; [intros _; lra | reflexivity].
Qed.


(** ** [simulate_match] *)

Lemma not_in_false {V} (d : gmap string V) key v : d !! key = Some v -> not_in key d = false.
Proof. unfold not_in. now intros ->. Qed.

Lemma not_in_true {V} (d : gmap string V) key : d !! key = None -> not_in key d = true.
Proof. unfold not_in. now intros ->. Qed.

Lemma stat_known d team s field : d !! team = Some s -> stat d team field = Ok (field s).
Proof. unfold stat, getitem. now intros ->. Qed.

Lemma simulate_match_both_known d home away hs as_ rs :
  d !! home = Some hs -> d !! away = Some as_ ->
  simulate_match d home away rs = Ok (classify (edge hs as_), rs).
Proof.
  intros Hh Ha. unfold simulate_match.
  rewrite (not_in_false _ _ _ Hh), (not_in_false _ _ _ Ha). simpl.
  unfold bind, lift.
  rewrite !(stat_known _ _ _ _ Hh), !(stat_known _ _ _ _ Ha).
  reflexivity.
Qed.



(** C8. For two known teams, swapping home and away negates the edge and
    keeps its magnitude; the model predicts Draw for one ordering exactly
    when it predicts Draw for the other; and a win of the home side in one
    ordering facing a win of the away side in the other happens exactly when
    the magnitude of the edge exceeds 0.2. *)
Theorem swap_home_away_negates_edge
    (d : gmap string Stats) (home away : string) (hs as_ : Stats) (rs : RandomState) :
  d !! home = Some hs -> d !! away = Some as_ ->
  edge as_ hs == - edge hs as_ /\
  Qabs (edge as_ hs) == Qabs (edge hs as_) /\
  exists o1 o2,
    simulate_match d home away rs = Ok (o1, rs) /\
    simulate_match d away home rs = Ok (o2, rs) /\
    (o1 = Draw <-> o2 = Draw) /\
    (o1 = HomeWin <-> o2 = AwayWin) /\
    (o1 = AwayWin <-> o2 = HomeWin) /\
    ((o1 = HomeWin /\ o2 = AwayWin) \/ (o1 = AwayWin /\ o2 = HomeWin)
     <-> 2 # 10 < Qabs (edge hs as_)).
Proof.
  intros Hh Ha.
  assert (Hneg : edge as_ hs == - edge hs as_)
    by (unfold edge, home_advantage_of; ring).
  split; [exact Hneg |].
  split; [rewrite Hneg; apply Qabs_opp |].
  exists (classify (edge hs as_)), (classify (edge as_ hs)).
  rewrite (simulate_match_both_known _ _ _ _ _ _ Hh Ha).
  rewrite (simulate_match_both_known _ _ _ _ _ _ Ha Hh).
  do 2 (split; [reflexivity |]).
  rewrite !classify_Draw, !classify_HomeWin, !classify_AwayWin.
  repeat split; intros; try lra.
  - destruct H as [[? ?] | [? ?]].
    + rewrite Qabs_pos; lra.
    + rewrite Qabs_neg; lra.
  - destruct (Qlt_le_dec (edge hs as_) 0) as [Hlt | Hle].
    + rewrite Qabs_neg in H by lra. right. lra.
    + rewrite Qabs_pos in H by lra. left. lra.
Qed.

Lemma swap_home_away_negates_edge_witness :
  edge (mkStats (1 # 2) (1 # 2) 0) (mkStats 1 (1 # 2) 0)
  == - edge (mkStats 1 (1 # 2) 0) (mkStats (1 # 2) (1 # 2) 0).
Proof.
  assert (HA : scenario_stats !! "A" = Some (mkStats 1 (1 # 2) 0))
    by (vm_compute; reflexivity).
  assert (HB : scenario_stats !! "B" = Some (mkStats (1 # 2) (1 # 2) 0))
    by (vm_compute; reflexivity).
  exact (proj1 (swap_home_away_negates_edge scenario_stats "A" "B" _ _
                  (mkRandomState (fun _ => 0%N) 0) HA HB)).
Defined.

(** ** The generator and [np.random.choice] *)

Lemma uniform01_range k : 0 <= uniform01 k < 1.
Proof.
  assert (Hlt : (k mod Npos two53 < Npos two53)%N)
    by (apply N.mod_lt; discriminate).
  unfold uniform01, Qle, Qlt. cbn [Qnum Qden].
  generalize dependent (k mod Npos two53)%N. intros r Hlt.
  lia.
Qed.

Lemma searchsorted_right_lt (p : list Q) (acc u : Q) :
  acc <= u -> u < acc + Qsum p ->
  (searchsorted_right (cumsum_from acc p) u < length p)%nat.
Proof.
  revert acc. induction p as [| x p IH]; intros acc Hlo Hhi; simpl in *.
  - lra.
  - destruct (Qle_bool (acc + x) u) eqn:E; [| lia].
    apply Qle_bool_iff in E.
    apply (proj1 (Nat.succ_lt_mono _ _)).
    apply IH; [exact E | lra].
Qed.

Lemma existsb_negative_false (p : list Q) :
  Forall (fun x => 0 <= x) p -> existsb (fun x => Qlt_bool x 0) p = false.
Proof.
  induction 1 as [| x p Hx _ IH]; simpl; [reflexivity |].
  rewrite IH, orb_false_r. now apply Qlt_bool_false.
Qed.

Lemma last_cumsum_from (p : list Q) (acc d : Q) :
  p <> [] -> List.last (cumsum_from acc p) d == acc + Qsum p.
Proof.
  revert acc. induction p as [| x p IH]; intros acc Hne; [contradiction |].
  destruct p as [| y p].
  - simpl. ring.
  - change (List.last (cumsum_from acc (x :: y :: p)) d)
      with (List.last (cumsum_from (acc + x) (y :: p)) d).
    rewrite IH by discriminate. simpl. ring.
Qed.

Lemma searchsorted_right_scaled (cdf : list Q) (t u : Q) :
  t == 1 ->
  searchsorted_right (map (fun c => c / t) cdf) u = searchsorted_right cdf u.
Proof.
  intros Ht. induction cdf as [| c cdf IH]; simpl; [reflexivity |].
  assert (E : c / t == c) by (rewrite Ht; field).
  rewrite (Qleb_comp _ _ E u u (Qeq_refl u)), IH. reflexivity.
Qed.

(** A well-formed call of [np.random.choice] returns an entry of [a] and
    consumes one draw. *)
Lemma np_random_choice_ok {A} (a : list A) (p : list Q) (rs : RandomState) :
  length a = length p -> Forall (fun x => 0 <= x) p -> Qsum p == 1 ->
  exists x,
    np_random_choice a p rs = Ok (x, advance rs) /\
    nth_error a (searchsorted_right (cumsum p) (next_uniform rs)) = Some x.
Proof.
  intros Hlen Hpos Hsum. unfold np_random_choice.
  assert (Hne : p <> []).
  { intros ->. simpl in Hsum. discriminate. }
  assert (Hlen0 : Nat.eqb (length a) 0 = false).
  { rewrite Hlen. destruct p; [contradiction | reflexivity]. }
  rewrite Hlen0, Hlen, Nat.eqb_refl. cbn [negb].
  rewrite (existsb_negative_false _ Hpos).
  rewrite (Qeq_eq_bool _ _ Hsum). cbn [negb].
  unfold bind, random_sample.
  rewrite searchsorted_right_scaled.
  2:{ unfold cumsum. rewrite last_cumsum_from by assumption. lra. }
  pose proof (uniform01_range (bits rs (cursor rs))) as [Hlo Hhi].
  fold (next_uniform rs) in Hlo, Hhi.
  assert (Hidx : (searchsorted_right (cumsum p) (next_uniform rs) < length a)%nat).
  { rewrite Hlen. apply searchsorted_right_lt; [exact Hlo | lra]. }
  apply nth_error_Some in Hidx.
  destruct (nth_error a _) as [x |] eqn:E; [| congruence].
  exists x. split; reflexivity.
Qed.

Lemma fallback_choice (rs : RandomState) :
  exists o,
    np_random_choice [HomeWin; Draw; AwayWin] [1 # 3; 1 # 3; 1 # 3] rs = Ok (o, advance rs) /\
    forall x, o = x <->
      fst (fallback_interval x) <= next_uniform rs < snd (fallback_interval x).
Proof.
  destruct (np_random_choice_ok [HomeWin; Draw; AwayWin] [1 # 3; 1 # 3; 1 # 3] rs)
    as (o & Hrun & Hnth).
  - reflexivity.
  - repeat constructor; unfold Qle; simpl; lia.
  - reflexivity.
  - exists o. split; [exact Hrun |].
    pose proof (uniform01_range (bits rs (cursor rs))) as [Hlo Hhi].
    fold (next_uniform rs) in Hlo, Hhi.
    unfold cumsum in Hnth. simpl in Hnth.
    destruct (Qle_bool (0 + (1 # 3)) (next_uniform rs)) eqn:E1;
      [apply Qle_bool_iff in E1 | apply Qlt_bool_false in E1 || idtac].
    + destruct (Qle_bool (0 + (1 # 3) + (1 # 3)) (next_uniform rs)) eqn:E2.
      * apply Qle_bool_iff in E2.
        destruct (Qle_bool (0 + (1 # 3) + (1 # 3) + (1 # 3)) (next_uniform rs)) eqn:E3.
        -- apply Qle_bool_iff in E3. lra.
        -- simpl in Hnth. injection Hnth as <-.
           intros [| |]; simpl; split; intros; try discriminate; try reflexivity; lra.
      * assert (next_uniform rs < 0 + (1 # 3) + (1 # 3)) as E2'.
        { apply Qlt_bool_iff. unfold Qlt_bool. now rewrite E2. }
        simpl in Hnth. injection Hnth as <-.
        intros [| |]; simpl; split; intros; try discriminate; try reflexivity; lra.
    + assert (next_uniform rs < 0 + (1 # 3)) as E1'.
      { apply Qlt_bool_iff. unfold Qlt_bool. now rewrite E1. }
      simpl in Hnth. injection Hnth as <-.
      intros [| |]; simpl; split; intros; try discriminate; try reflexivity; lra.
Qed.

(** ** [simulate_head_to_head] *)
















(** ** Season weights *)

(** C7. The weight of a season is 1 before 2015 and
    [1 + (year - 2015) / 5] from 2015 on, and it never decreases as the year
    grows. *)
Theorem SeasonWeight_cutoff_and_monotone (year year' : Q) :
  (year < 2015 -> SeasonWeight year == 1) /\
  (2015 <= year -> SeasonWeight year == 1 + (year - 2015) / 5) /\
  (year <= year' -> SeasonWeight year <= SeasonWeight year').
Proof.
  unfold SeasonWeight.
  destruct (Qlt_bool_spec year 2015) as [Hy | Hy];
    destruct (Qlt_bool_spec year' 2015) as [Hy' | Hy'].
  - repeat split; intros; try lra.
  - repeat split; intros; try lra.
    assert (0 <= (year' - 2015) / 5) by (apply Qle_shift_div_l; lra). lra.
  - repeat split; intros; try lra.
  - repeat split; intros; try lra.
    assert (0 <= (year' - 2015) / 5 - (year - 2015) / 5).
    { assert (E : (year' - 2015) / 5 - (year - 2015) / 5 == (year' - year) / 5)
        by field.
      rewrite E. apply Qle_shift_div_l; lra. }
    lra.
Qed.

Lemma SeasonWeight_cutoff_and_monotone_witness :
  SeasonWeight 2010 == 1 /\
  SeasonWeight 2020 == 1 + (2020 - 2015) / 5 /\
  SeasonWeight 2010 <= SeasonWeight 2020.
Proof.
  destruct (SeasonWeight_cutoff_and_monotone 2010 2020) as (H1 & _ & H3).
  destruct (SeasonWeight_cutoff_and_monotone 2020 2020) as (_ & H2 & _).
  split; [apply H1; reflexivity |].
  split; [apply H2; unfold Qle; simpl; lia |].
  apply H3. unfold Qle; simpl; lia.
Defined.

(** ** Ordered dictionaries *)

Section OrderedDict.
Context {V : Type}.
Implicit Types (d : list (string * V)) (k t : string) (v : V).

Lemma dict_get_dict_set (d : list (string * V)) k v t :
  dict_get (dict_set d k v) t = if String.eqb k t then Ok v else dict_get d t.
Proof.
  induction d as [| [k0 w] d IH]; simpl.
  - reflexivity.
  - destruct (String.eqb_spec k0 k) as [-> | Hne]; simpl.
    + destruct (String.eqb k t); reflexivity.
    + rewrite IH.
      destruct (String.eqb_spec k0 t) as [-> | Hne']; [| reflexivity].
      destruct (String.eqb_spec k t) as [-> | _]; [contradiction | reflexivity].
Qed.

Lemma dict_set_keys_present (d : list (string * V)) k v :
  In k (map fst d) -> map fst (dict_set d k v) = map fst d.
Proof.
  induction d as [| [k0 w] d IH]; simpl; [contradiction |].
  intros Hin.
  destruct (String.eqb_spec k0 k) as [-> | Hne]; simpl; [reflexivity |].
  f_equal. apply IH. destruct Hin; [contradiction | assumption].
Qed.

Lemma dict_set_keys_absent (d : list (string * V)) k v :
  ~ In k (map fst d) -> dict_set d k v = d ++ [(k, v)].
Proof.
  induction d as [| [k0 w] d IH]; simpl; [reflexivity |].
  intros Hnin.
  destruct (String.eqb_spec k0 k) as [-> | Hne]; [tauto |].
  f_equal. apply IH. tauto.
Qed.

Lemma dict_get_present (d : list (string * V)) k :
  In k (map fst d) -> exists v, dict_get d k = Ok v.
Proof.
  induction d as [| [k0 w] d IH]; simpl; [contradiction |].
  intros Hin.
  destruct (String.eqb_spec k0 k) as [-> | Hne]; [eauto |].
  apply IH. destruct Hin; [contradiction | assumption].
Qed.

Lemma dict_get_Ok_In (d : list (string * V)) k v :
  dict_get d k = Ok v -> In (k, v) d.
Proof.
  induction d as [| [k0 w] d IH]; simpl; [discriminate |].
  destruct (String.eqb_spec k0 k) as [-> | Hne].
  - intros [= ->]. now left.
  - intros Hget. right. now apply IH.
Qed.

Lemma dict_get_NoDup (d : list (string * V)) k v :
  List.NoDup (map fst d) -> In (k, v) d -> dict_get d k = Ok v.
Proof.
  induction d as [| [k0 w] d IH]; simpl; [contradiction |].
  intros Hnd Hin. apply List.NoDup_cons_iff in Hnd as [Hnin Hnd].
  destruct Hin as [[= -> ->] | Hin].
  - now rewrite String.eqb_refl.
  - destruct (String.eqb_spec k0 k) as [-> | Hne].
    + exfalso. apply Hnin. apply in_map_iff. exists (k, v). now split.
    + now apply IH.
Qed.

Lemma dict_from_keys_fold (teams : list string) (v : V) (d : list (string * V)) :
  List.NoDup (map fst d ++ teams) ->
  fold_left (fun d team => dict_set d team v) teams d
  = d ++ map (fun team => (team, v)) teams.
Proof.
  revert d. induction teams as [| t teams IH]; intros d Hnd; simpl.
  - now rewrite app_nil_r.
  - assert (Hnin : ~ In t (map fst d)).
    { intros Hin. apply List.NoDup_remove_2 in Hnd. apply Hnd.
      apply in_or_app. now left. }
    rewrite (dict_set_keys_absent _ _ _ Hnin).
    rewrite IH.
    + now rewrite <- app_assoc.
    + rewrite map_app. simpl. rewrite <- app_assoc. exact Hnd.
Qed.

Lemma dict_from_keys_NoDup (teams : list string) (v : V) :
  List.NoDup teams -> dict_from_keys teams v = map (fun team => (team, v)) teams.
Proof.
  intros Hnd. unfold dict_from_keys. now rewrite dict_from_keys_fold.
Qed.

Lemma dict_from_keys_keys (teams : list string) (v : V) :
  List.NoDup teams -> map fst (dict_from_keys teams v) = teams.
Proof.
  intros Hnd. rewrite dict_from_keys_NoDup by assumption.
  rewrite map_map. simpl. apply map_id.
Qed.

End OrderedDict.

Lemma total_points_dict_set (d : list (string * Z)) k p n :
  dict_get d k = Ok p ->
  total_points (dict_set d k (p + n)%Z) = (total_points d + n)%Z.
Proof.
  unfold total_points.
  induction d as [| [k0 w] d IH]; simpl; [discriminate |].
  destruct (String.eqb_spec k0 k) as [-> | Hne]; simpl.
  - intros [= ->]. lia.
  - intros Hget. rewrite (IH Hget). lia.
Qed.

Lemma total_points_zero (teams : list string) :
  total_points (map (fun team => (team, 0%Z)) teams) = 0%Z.
Proof.
  unfold total_points. induction teams; simpl; [reflexivity | assumption].
Qed.

(** ** Loops *)

Lemma for_each_app {A S} (xs ys : list A) (body : A -> S -> M S) (s : S) rs :
  for_each (xs ++ ys) body s rs = bind (for_each xs body s) (for_each ys body) rs.
Proof.
  revert s rs. induction xs as [| x xs IH]; intros s rs; simpl.
  - reflexivity.
  - unfold bind in *.
    destruct (body x s rs) as [[s' rs'] | e]; [apply IH | reflexivity].
Qed.

Lemma for_each_ext {A S} (body body' : A -> S -> M S) :
  (forall x s rs, body x s rs = body' x s rs) ->
  forall xs s rs, for_each xs body s rs = for_each xs body' s rs.
Proof.
  intros Hext xs. induction xs as [| x xs IH]; intros s rs; simpl.
  - reflexivity.
  - unfold bind. rewrite Hext.
    destruct (body' x s rs) as [[s' rs'] | e]; [apply IH | reflexivity].
Qed.

Lemma for_each_filter {A S} (f : A -> bool) (xs : list A) (body : A -> S -> M S) (s : S) rs :
  for_each xs (fun x s => if f x then body x s else ret s) s rs
  = for_each (List.filter f xs) body s rs.
Proof.
  revert s rs. induction xs as [| x xs IH]; intros s rs; simpl.
  - reflexivity.
  - destruct (f x); simpl.
    + unfold bind. destruct (body x s rs) as [[s' rs'] | e]; [apply IH | reflexivity].
    + unfold bind, ret. apply IH.
Qed.

Lemma for_each_map {A B S} (g : A -> B) (xs : list A) (body : B -> S -> M S) (s : S) rs :
  for_each (map g xs) body s rs = for_each xs (fun x => body (g x)) s rs.
Proof.
  revert s rs. induction xs as [| x xs IH]; intros s rs; simpl.
  - reflexivity.
  - unfold bind. destruct (body (g x) s rs) as [[s' rs'] | e]; [apply IH | reflexivity].
Qed.

Lemma for_each_nested {A B S} (xs : list A) (ys : A -> list B)
    (body : A -> B -> S -> M S) (s : S) rs :
  for_each xs (fun x s => for_each (ys x) (body x) s) s rs
  = for_each (flat_map (fun x => map (pair x) (ys x)) xs)
             (fun p => body (fst p) (snd p)) s rs.
Proof.
  revert s rs. induction xs as [| x xs IH]; intros s rs; simpl.
  - reflexivity.
  - rewrite for_each_app. unfold bind.
    rewrite for_each_map. simpl.
    change (fun x0 : B => body x x0) with (body x).
    destruct (for_each (ys x) (body x) s rs) as [[s' rs'] | e]; [apply IH | reflexivity].
Qed.

(** The nested loops of a season visit the fixtures in order. *)
Lemma simulate_trial_fixtures d teams rs :
  simulate_trial d teams rs
  = for_each (fixtures teams) (fun p => play_match d (fst p) (snd p))
             (dict_from_keys teams 0%Z) rs.
Proof.
  unfold simulate_trial, fixtures.
  rewrite <- (for_each_nested teams
                (fun home_team =>
                   List.filter (fun away_team => negb (String.eqb home_team away_team)) teams)
                (fun home_team away_team => play_match d home_team away_team)).
  apply for_each_ext. intros home_team s rs'.
  apply (for_each_filter (fun away_team => negb (String.eqb home_team away_team))).
Qed.

(** ** One simulated season *)

(** [simulate_match] returns an outcome for every pair of names. *)
Lemma simulate_match_total d home away rs :
  exists o rs', simulate_match d home away rs = Ok (o, rs').
Proof.
  destruct (d !! home) as [hs |] eqn:Hh; [destruct (d !! away) as [as_ |] eqn:Ha |].
  - eexists _, _. eapply simulate_match_both_known; eassumption.
  - unfold simulate_match. rewrite (not_in_true _ _ Ha), orb_true_r.
    destruct (fallback_choice rs) as (o & Hrun & _). eauto.
  - unfold simulate_match. rewrite (not_in_true _ _ Hh). cbn [orb].
    destruct (fallback_choice rs) as (o & Hrun & _). eauto.
Qed.

Lemma add_points_present st team n :
  In team (map fst st) ->
  exists p, dict_get st team = Ok p /\ add_points st team n = Ok (dict_set st team (p + n)%Z).
Proof.
  intros Hin. destruct (dict_get_present _ _ Hin) as [p Hp].
  exists p. split; [exact Hp |]. unfold add_points. now rewrite Hp.
Qed.

Lemma rbind_add_zero (r : result Z) : rbind r (fun p => Ok (p + 0)%Z) = r.
Proof. destruct r; simpl; [now rewrite Z.add_0_r | reflexivity]. Qed.

(** One match: the tally keeps its teams, every team gains what the 3/1/0
    rule gives it, and the total grows by 2 for a draw and by 3 otherwise. *)
Lemma play_match_spec d home away st rs :
  In home (map fst st) -> In away (map fst st) ->
  exists o st' rs',
    simulate_match d home away rs = Ok (o, rs') /\
    play_match d home away st rs = Ok (st', rs') /\
    map fst st' = map fst st /\
    (forall t, dict_get st' t
               = rbind (dict_get st t) (fun p => Ok (p + points_for t (home, away, o))%Z)) /\
    total_points st' = (total_points st + if Outcome_eqb Draw o then 2 else 3)%Z.
Proof.
  intros Hh Ha.
  destruct (simulate_match_total d home away rs) as (o & rs' & Hrun).
  unfold play_match, bind. rewrite Hrun.
  destruct (add_points_present st home 3 Hh) as (ph3 & Gh3 & Ah3).
  destruct (add_points_present st home 1 Hh) as (ph1 & Gh1 & Ah1).
  destruct (add_points_present st away 3 Ha) as (pa3 & Ga3 & Aa3).
  destruct o; unfold lift, points_for.
  - rewrite Ah3. eexists _, _, _. split; [reflexivity |]. split; [reflexivity |].
    split; [now apply dict_set_keys_present |]. split.
    + intros t. rewrite dict_get_dict_set, (String.eqb_sym t home).
      destruct (String.eqb_spec home t) as [<- | Hne].
      * now rewrite Gh3.
      * now rewrite rbind_add_zero.
    + now apply total_points_dict_set.
  - rewrite Ah1. cbn [rbind].
    assert (Ha' : In away (map fst (dict_set st home (ph1 + 1)%Z)))
      by now rewrite dict_set_keys_present.
    destruct (add_points_present _ away 1 Ha') as (pa1 & Ga1 & Aa1).
    rewrite Aa1. eexists _, _, _. split; [reflexivity |]. split; [reflexivity |].
    split; [rewrite !dict_set_keys_present; auto |]. split.
    + intros t. rewrite !dict_get_dict_set.
      rewrite dict_get_dict_set in Ga1.
      rewrite (String.eqb_sym t home), (String.eqb_sym t away).
      destruct (String.eqb_spec away t) as [Eat | Hat];
        destruct (String.eqb_spec home t) as [Eht | Hht]; subst.
      * rewrite String.eqb_refl in Ga1. injection Ga1 as <-.
        rewrite Gh1. simpl. f_equal; lia.
      * destruct (String.eqb_spec home t) as [-> | _]; [contradiction |].
        rewrite Ga1. simpl. f_equal; lia.
      * rewrite Gh1. simpl. f_equal; lia.
      * cbn [Z.add]. now rewrite rbind_add_zero.
    + rewrite (total_points_dict_set _ _ _ _ Ga1).
      rewrite (total_points_dict_set _ _ _ _ Gh1). simpl. lia.
  - rewrite Aa3. eexists _, _, _. split; [reflexivity |]. split; [reflexivity |].
    split; [now apply dict_set_keys_present |]. split.
    + intros t. rewrite dict_get_dict_set, (String.eqb_sym t away).
      destruct (String.eqb_spec away t) as [<- | Hne].
      * now rewrite Ga3.
      * now rewrite rbind_add_zero.
    + now apply total_points_dict_set.
Qed.

Lemma count_results_cons o results :
  (3 * decisive_matches (o :: results) + 2 * drawn_matches (o :: results)
   = (if Outcome_eqb Draw o then 2 else 3)
     + (3 * decisive_matches results + 2 * drawn_matches results))%Z.
Proof.
  unfold decisive_matches, drawn_matches.
  destruct o; cbn [List.filter Outcome_eqb negb length]; lia.
Qed.

(** A list of matches between teams of the tally, played in order. *)
Lemma play_fixtures d (matches : list (string * string)) :
  forall st rs,
    (forall home away, In (home, away) matches ->
       In home (map fst st) /\ In away (map fst st)) ->
    exists results st' rs',
      play_all d matches rs = Ok (results, rs') /\
      for_each matches (fun p => play_match d (fst p) (snd p)) st rs = Ok (st', rs') /\
      length results = length matches /\
      map fst st' = map fst st /\
      (forall t, dict_get st' t
                 = rbind (dict_get st t)
                         (fun p => Ok (p + points_of t (combine matches results))%Z)) /\
      total_points st'
      = (total_points st + (3 * decisive_matches results + 2 * drawn_matches results))%Z.
Proof.
  induction matches as [| [home away] matches IH]; intros st rs Hkeys.
  - exists [], st, rs. simpl. repeat split.
    + intros t. unfold points_of. simpl. now rewrite rbind_add_zero.
    + unfold decisive_matches, drawn_matches. simpl. lia.
  - destruct (Hkeys home away (or_introl eq_refl)) as [Hh Ha].
    destruct (play_match_spec d home away st rs Hh Ha)
      as (o & st1 & rs1 & Hsim & Hplay & Hk1 & Hget1 & Htot1).
    destruct (IH st1 rs1) as (results & st' & rs' & Hall & Hloop & Hlen & Hk & Hget & Htot).
    { intros h a Hin. rewrite Hk1. apply Hkeys. now right. }
    exists (o :: results), st', rs'.
    split; [simpl; unfold bind; rewrite Hsim, Hall; reflexivity |].
    split; [simpl; unfold bind; simpl in Hplay; rewrite Hplay; exact Hloop |].
    split; [simpl; now rewrite Hlen |].
    split; [now rewrite Hk, Hk1 |].
    split.
    + intros t. rewrite Hget, Hget1.
      destruct (dict_get st t) as [p | e]; simpl; [| reflexivity].
      f_equal; unfold points_of; simpl; lia.
    + rewrite Htot, Htot1, count_results_cons. lia.
Qed.

Lemma in_fixtures teams home away :
  In (home, away) (fixtures teams) <-> In home teams /\ In away teams /\ home <> away.
Proof.
  unfold fixtures. rewrite in_flat_map. split.
  - intros (h & Hh & Hin). apply in_map_iff in Hin as (a & [= -> ->] & Ha).
    apply List.filter_In in Ha as [Ha Hne].
    apply negb_true_iff, String.eqb_neq in Hne. auto.
  - intros (Hh & Ha & Hne). exists home. split; [exact Hh |].
    apply in_map. apply List.filter_In. split; [exact Ha |].
    now apply negb_true_iff, String.eqb_neq.
Qed.

Lemma NoDup_pair_with {A B} (x : A) (ys : list B) :
  List.NoDup ys -> List.NoDup (map (pair x) ys).
Proof.
  induction 1 as [| y ys Hnin _ IH]; simpl; constructor; [| exact IH].
  intros Hin. apply in_map_iff in Hin as (y' & [= ->] & Hy'). contradiction.
Qed.

Lemma NoDup_flat_map_pairs {A B} (xs : list A) (ys : A -> list B) :
  List.NoDup xs -> (forall x, List.NoDup (ys x)) ->
  List.NoDup (flat_map (fun x => map (pair x) (ys x)) xs).
Proof.
  intros Hxs Hys. induction Hxs as [| h hs Hnin _ IH]; simpl; [constructor |].
  apply List.NoDup_app.
  - apply NoDup_pair_with, Hys.
  - exact IH.
  - intros [h' a] Hin Hin'.
    apply in_map_iff in Hin as (a' & [= <- <-] & _).
    apply in_flat_map in Hin' as (h'' & Hh'' & Hin').
    apply in_map_iff in Hin' as (a'' & [= <- <-] & _). contradiction.
Qed.

Lemma NoDup_fixtures teams : List.NoDup teams -> List.NoDup (fixtures teams).
Proof.
  intros Hnd. unfold fixtures.
  apply (NoDup_flat_map_pairs teams
           (fun home_team =>
              List.filter (fun away_team => negb (String.eqb home_team away_team)) teams)).
  - exact Hnd.
  - intros h. now apply List.NoDup_filter.
Qed.

(** One simulated season of distinct teams: the results of its fixtures,
    the standings, and how the two are related. *)
Lemma simulate_trial_run d historical_teams rs :
  List.NoDup historical_teams ->
  exists results standings rs',
    play_all d (fixtures historical_teams) rs = Ok (results, rs') /\
    length results = length (fixtures historical_teams) /\
    simulate_trial d historical_teams rs = Ok (standings, rs') /\
    map fst standings = historical_teams /\
    (forall team, In team historical_teams ->
       dict_get standings team
       = Ok (points_of team (combine (fixtures historical_teams) results))) /\
    total_points standings
    = (3 * decisive_matches results + 2 * drawn_matches results)%Z.
Proof.
  intros Hnd.
  destruct (play_fixtures d (fixtures historical_teams)
              (dict_from_keys historical_teams 0%Z) rs)
    as (results & st' & rs' & Hall & Hloop & Hlen & Hk & Hget & Htot).
  { intros h a Hin. apply in_fixtures in Hin as (Hh & Ha & _).
    rewrite dict_from_keys_keys by assumption. auto. }
  exists results, st', rs'.
  split; [exact Hall |]. split; [exact Hlen |].
  split; [now rewrite simulate_trial_fixtures |].
  rewrite dict_from_keys_keys in Hk by assumption.
  split; [exact Hk |]. split.
  - intros team Hin. rewrite Hget.
    rewrite dict_from_keys_NoDup by assumption.
    rewrite (dict_get_NoDup _ team 0%Z).
    + reflexivity.
    + rewrite map_map. simpl. now rewrite map_id.
    + apply in_map_iff. now exists team.
  - rewrite Htot, dict_from_keys_NoDup by assumption.
    rewrite total_points_zero. lia.
Qed.

(** C3. In one simulated season the tally starts with every team at zero;
    the matches played are the pairs of a home team and a different away
    team, each such pair once; every team ends with the points the 3/1/0
    rule gives it over these matches; and the points of all teams add up to
    three times the number of decisive matches plus twice the number of
    draws. *)
Theorem simulate_trial_points
    (d : gmap string Stats) (historical_teams : list string) (rs : RandomState) :
  List.NoDup historical_teams ->
  dict_from_keys historical_teams 0%Z = map (fun team => (team, 0%Z)) historical_teams /\
  List.NoDup (fixtures historical_teams) /\
  (forall home away,
     In (home, away) (fixtures historical_teams)
     <-> In home historical_teams /\ In away historical_teams /\ home <> away) /\
  exists results standings rs',
    play_all d (fixtures historical_teams) rs = Ok (results, rs') /\
    length results = length (fixtures historical_teams) /\
    simulate_trial d historical_teams rs = Ok (standings, rs') /\
    map fst standings = historical_teams /\
    (forall team, In team historical_teams ->
       dict_get standings team
       = Ok (points_of team (combine (fixtures historical_teams) results))) /\
    total_points standings
    = (3 * decisive_matches results + 2 * drawn_matches results)%Z.
Proof.
  intros Hnd.
  split; [now apply dict_from_keys_NoDup |].
  split; [now apply NoDup_fixtures |].
  split; [intros; apply in_fixtures |].
  destruct (play_fixtures d (fixtures historical_teams)
              (dict_from_keys historical_teams 0%Z) rs)
    as (results & st' & rs' & Hall & Hloop & Hlen & Hk & Hget & Htot).
  { intros h a Hin. apply in_fixtures in Hin as (Hh & Ha & _).
    rewrite dict_from_keys_keys by assumption. auto. }
  exists results, st', rs'.
  split; [exact Hall |]. split; [exact Hlen |].
  split; [now rewrite simulate_trial_fixtures |].
  rewrite dict_from_keys_keys in Hk by assumption.
  split; [exact Hk |]. split.
  - intros team Hin. rewrite Hget.
    rewrite dict_from_keys_NoDup by assumption.
    rewrite (dict_get_NoDup _ team 0%Z).
    + reflexivity.
    + rewrite map_map. simpl. now rewrite map_id.
    + apply in_map_iff. now exists team.
  - rewrite Htot, dict_from_keys_NoDup by assumption.
    rewrite total_points_zero. lia.
Qed.

Lemma simulate_trial_points_witness :
  exists results standings rs',
    play_all scenario_stats (fixtures ["A"; "B"]) (mkRandomState (fun _ => 0%N) 0)
    = Ok (results, rs') /\
    simulate_trial scenario_stats ["A"; "B"] (mkRandomState (fun _ => 0%N) 0)
    = Ok (standings, rs') /\
    total_points standings
    = (3 * decisive_matches results + 2 * drawn_matches results)%Z.
Proof.
  assert (Hnd : List.NoDup ["A"; "B"]).
  { repeat constructor; simpl; intuition discriminate. }
  destruct (simulate_trial_points scenario_stats ["A"; "B"]
              (mkRandomState (fun _ => 0%N) 0) Hnd)
    as (_ & _ & _ & results & standings & rs' & Hall & _ & Hrun & _ & _ & Htot).
  exists results, standings, rs'. repeat split; assumption.
Defined.

(** ** Ranking the teams of a season *)

Lemma insert_desc_perm x l : Permutation (insert_desc x l) (x :: l).
Proof.
  induction l as [| y l IH]; simpl; [reflexivity |].
  destruct (snd x <? snd y)%Z; [| reflexivity].
  rewrite IH. apply perm_swap.
Qed.

Lemma sorted_desc_perm items : Permutation (sorted_desc items) items.
Proof.
  induction items as [| x items IH]; simpl; [reflexivity |].
  rewrite insert_desc_perm. now constructor.
Qed.

(** Every team of the ranking gets one more rank, between the offset and the
    offset plus the number of ranked teams; the other lists do not change. *)
Lemma record_ranks_spec (sorted_teams : list (string * Z)) :
  forall (rank : Z) (final_rankings : list (string * list Z)),
    List.NoDup (map fst sorted_teams) ->
    (forall t, In t (map fst sorted_teams) -> In t (map fst final_rankings)) ->
    exists final_rankings',
      record_ranks rank sorted_teams final_rankings = Ok final_rankings' /\
      map fst final_rankings' = map fst final_rankings /\
      forall t,
        (~ In t (map fst sorted_teams) ->
           dict_get final_rankings' t = dict_get final_rankings t) /\
        (In t (map fst sorted_teams) ->
           exists ranks x,
             dict_get final_rankings t = Ok ranks /\
             dict_get final_rankings' t = Ok (ranks ++ [x]) /\
             (rank < x <= rank + Z.of_nat (length sorted_teams))%Z).
Proof.
  induction sorted_teams as [| [team pts] rest IH]; intros rank fr Hnd Hsub.
  - exists fr. simpl. split; [reflexivity |]. split; [reflexivity |].
    intros t. split; [reflexivity | contradiction].
  - simpl in Hnd. apply List.NoDup_cons_iff in Hnd as [Hnin Hnd].
    destruct (dict_get_present fr team) as [ranks Hranks].
    { apply Hsub. now left. }
    set (fr1 := dict_set fr team (ranks ++ [(rank + 1)%Z])).
    assert (Hk1 : map fst fr1 = map fst fr).
    { apply dict_set_keys_present, Hsub. now left. }
    destruct (IH (rank + 1)%Z fr1 Hnd) as (fr' & Hrun & Hk & Hspec).
    { intros t Hin. rewrite Hk1. apply Hsub. now right. }
    exists fr'. cbn [record_ranks]. rewrite Hranks. cbn [rbind]. fold fr1.
    split; [exact Hrun |]. split; [now rewrite Hk |].
    intros t. destruct (Hspec t) as [Hout Hin].
    assert (Hget1 : dict_get fr1 t
                    = if String.eqb team t then Ok (ranks ++ [(rank + 1)%Z])
                      else dict_get fr t)
      by apply dict_get_dict_set.
    split.
    + intros Hnot. cbn [map fst In] in Hnot.
      rewrite Hout by tauto. rewrite Hget1.
      destruct (String.eqb_spec team t); [tauto | reflexivity].
    + intros [<- | Hrest].
      * exists ranks, (rank + 1)%Z.
        rewrite (Hout Hnin), Hget1, String.eqb_refl.
        repeat split; [assumption | lia |].
        cbn [length]. lia.
      * destruct (Hin Hrest) as (ranks' & x & G1 & G' & Hx).
        exists ranks', x. rewrite Hget1 in G1.
        destruct (String.eqb_spec team t) as [-> | _]; [contradiction |].
        repeat split; [assumption | assumption | lia |].
        cbn [length]. lia.
Qed.

Lemma for_range_invariant {S} (P : nat -> S -> Prop) (body : S -> M S) :
  (forall k s rs, P k s -> exists s' rs', body s rs = Ok (s', rs') /\ P (Datatypes.S k) s') ->
  forall n k s rs,
    P k s -> exists s' rs', for_range n body s rs = Ok (s', rs') /\ P (k + n)%nat s'.
Proof.
  intros Hbody n. induction n as [| n IH]; intros k s rs HP; simpl.
  - exists s, rs. rewrite Nat.add_0_r. now split.
  - destruct (Hbody k s rs HP) as (s1 & rs1 & Hrun & HP1).
    destruct (IH (Datatypes.S k) s1 rs1 HP1) as (s' & rs' & Hloop & HP').
    exists s', rs'. unfold bind. rewrite Hrun.
    split; [exact Hloop |]. now rewrite Nat.add_succ_r.
Qed.

Lemma season_step_spec d teams k final_rankings rs :
  List.NoDup teams -> rankings_after teams k final_rankings ->
  exists final_rankings' rs',
    season_step d teams final_rankings rs = Ok (final_rankings', rs') /\
    rankings_after teams (Datatypes.S k) final_rankings'.
Proof.
  intros Hnd [Hkeys Hranks].
  destruct (simulate_trial_run d teams rs Hnd)
    as (results & standings & rs' & _ & _ & Hrun & Hst & _ & _).
  pose proof (sorted_desc_perm standings) as Hperm.
  assert (Hpk : Permutation (map fst (sorted_desc standings)) teams).
  { rewrite <- Hst. now apply Permutation_map. }
  destruct (record_ranks_spec (sorted_desc standings) 0%Z final_rankings)
    as (fr' & Hrec & Hk' & Hspec).
  { apply (Permutation_NoDup (Permutation_sym Hpk) Hnd). }
  { intros t Hin. rewrite Hkeys. now apply (Permutation_in _ Hpk). }
  exists fr', rs'. unfold season_step, bind, lift. rewrite Hrun, Hrec.
  split; [reflexivity |]. split; [now rewrite Hk' |].
  intros t Hin. destruct (Hspec t) as [_ Hadd].
  destruct Hadd as (ranks & x & G & G' & Hx).
  { now apply (Permutation_in _ (Permutation_sym Hpk)). }
  destruct (Hranks t Hin) as (ranks0 & G0 & Hlen & Hall).
  rewrite G in G0. injection G0 as <-.
  exists (ranks ++ [x]). split; [exact G' |].
  split; [rewrite length_app; simpl; lia |].
  apply Forall_app. split; [exact Hall |].
  constructor; [| constructor].
  rewrite (Permutation_length Hperm) in Hx.
  rewrite <- Hst, length_map. lia.
Qed.

(** ** Average positions *)

Lemma sum_ranks_bounds (ranks : list Z) (n : Z) :
  Forall (fun x => 1 <= x <= n)%Z ranks ->
  (Z.of_nat (length ranks) <= fold_right Z.add 0 ranks <= n * Z.of_nat (length ranks))%Z.
Proof.
  induction 1 as [| x ranks Hx _ IH]; simpl fold_right; cbn [length]; lia.
Qed.

Lemma np_mean_bounds (ranks : list Z) (n : Z) :
  ranks <> [] -> Forall (fun x => 1 <= x <= n)%Z ranks ->
  1 <= np_mean ranks <= inject_Z n.
Proof.
  intros Hne Hall. pose proof (sum_ranks_bounds ranks n Hall) as [Hlo Hhi].
  assert (Hlen : (0 < Z.of_nat (length ranks))%Z).
  { destruct ranks; [contradiction | cbn [length]; lia]. }
  assert (HlenQ : 0 < inject_Z (Z.of_nat (length ranks))).
  { change 0 with (inject_Z 0). now rewrite <- Zlt_Qlt. }
  unfold np_mean. split.
  - apply Qle_shift_div_l; [exact HlenQ |].
    rewrite Qmult_1_l. now rewrite <- Zle_Qle.
  - apply Qle_shift_div_r; [exact HlenQ |].
    rewrite <- inject_Z_mult. now rewrite <- Zle_Qle.
Qed.

Lemma average_positions_keys final_rankings :
  map fst (average_positions final_rankings) = map fst final_rankings.
Proof.
  unfold average_positions. rewrite map_map.
  apply map_ext. now intros [team ranks].
Qed.

Lemma average_positions_bounds teams k final_rankings team avg :
  List.NoDup teams -> k <> O -> rankings_after teams k final_rankings ->
  In (team, avg) (average_positions final_rankings) ->
  1 <= avg <= inject_Z (Z.of_nat (length teams)).
Proof.
  intros Hnd Hk [Hkeys Hranks] Hin.
  unfold average_positions in Hin.
  apply in_map_iff in Hin as ([t ranks] & [= -> <-] & Hin).
  assert (Ht : In team teams).
  { rewrite <- Hkeys. apply in_map_iff. now exists (team, ranks). }
  destruct (Hranks team Ht) as (ranks' & G & Hlen & Hall).
  rewrite (dict_get_NoDup final_rankings team ranks) in G;
    [| now rewrite Hkeys | exact Hin].
  injection G as <-.
  apply np_mean_bounds; [| exact Hall].
  intros ->. simpl in Hlen. congruence.
Qed.

(** ** Sorting the table *)

Lemma insert_asc_perm x l : Permutation (insert_asc x l) (x :: l).
Proof.
  induction l as [| y l IH]; simpl; [reflexivity |].
  destruct (Qlt_bool (snd y) (snd x)); [| reflexivity].
  rewrite IH. apply perm_swap.
Qed.

Lemma sort_values_perm df : Permutation (sort_values df) df.
Proof.
  induction df as [| x df IH]; simpl; [reflexivity |].
  rewrite insert_asc_perm. now constructor.
Qed.

Lemma insert_asc_sorted x l :
  StronglySorted (fun a b : string * Q => snd a <= snd b) l ->
  StronglySorted (fun a b : string * Q => snd a <= snd b) (insert_asc x l).
Proof.
  induction 1 as [| y l Hs IH Hy]; simpl.
  - constructor; constructor.
  - destruct (Qlt_bool_spec (snd y) (snd x)) as [Hlt | Hge].
    + constructor; [exact IH |].
      apply (Permutation_Forall (Permutation_sym (insert_asc_perm x l))).
      constructor; [lra | exact Hy].
    + constructor; [now constructor |].
      constructor; [lra |].
      eapply List.Forall_impl; [| exact Hy]. simpl. intros a Ha. lra.
Qed.

Lemma sort_values_sorted df :
  StronglySorted (fun a b : string * Q => snd a <= snd b) (sort_values df).
Proof.
  induction df as [| x df IH]; simpl; [constructor | now apply insert_asc_sorted].
Qed.

Lemma Forall_firstn {A} (P : A -> Prop) n l : Forall P l -> Forall P (firstn n l).
Proof.
  intros H. revert n. induction H as [| x l Hx _ IH]; intros [| n]; simpl;
    constructor; auto.
Qed.

Lemma firstn_sorted {A} (R : A -> A -> Prop) n l :
  StronglySorted R l -> StronglySorted R (firstn n l).
Proof.
  intros Hs. revert n. induction Hs as [| x l Hs IH Hx]; intros [| n]; simpl;
    try constructor.
  - apply IH.
  - now apply Forall_firstn.
Qed.

(** ** The season simulator *)

Lemma rankings_after_start teams :
  List.NoDup teams -> rankings_after teams 0 (dict_from_keys teams ([] : list Z)).
Proof.
  intros Hnd. split; [now apply dict_from_keys_keys |].
  intros t Ht. exists []. split; [| split; [reflexivity | constructor]].
  rewrite dict_from_keys_NoDup by assumption.
  apply dict_get_NoDup.
  - rewrite map_map. simpl. now rewrite map_id.
  - apply in_map_iff. now exists t.
Qed.

(** For any dictionary of profiles and any teams, known or not, the
    simulator completes its [num_simulations] seasons and prints the first
    ten rows of the sorted table of average positions. *)
Lemma simulate_season_of_spec d teams team_name rs :
  List.NoDup teams ->
  exists final_rankings rs',
    rankings_after teams num_simulations final_rankings /\
    simulate_season_of d teams team_name rs
    = Ok (MsgStandings (firstn 10 (sort_values (average_positions final_rankings)))
          :: (if negb (existsb (String.eqb team_name)
                         (map fst (firstn 10 (sort_values (average_positions final_rankings)))))
              then [MsgNotInTop10 team_name] else []),
          rs').
Proof.
  intros Hnd.
  destruct (for_range_invariant (rankings_after teams) (season_step d teams)
              (fun k s rs0 H => season_step_spec d teams k s rs0 Hnd H)
              num_simulations 0%nat _ rs (rankings_after_start teams Hnd))
    as (fr & rs' & Hrun & Hinv).
  exists fr, rs'. split; [exact Hinv |].
  unfold simulate_season_of, bind. rewrite Hrun. reflexivity.
Qed.



(** ** Loading the module *)

Lemma rbind_Ok {A B} (r : result A) (k : A -> result B) b :
  rbind r k = Ok b -> exists a, r = Ok a /\ k a = Ok b.
Proof. destruct r as [a | e]; simpl; [eauto | discriminate]. Qed.

Ltac inv_rbind H :=
  let a := fresh "a" in
  let Ha := fresh "Ha" in
  apply rbind_Ok in H as (a & Ha & H).

Lemma dict_get_has_column (df : list (string * Series)) c s :
  dict_get df c = Ok s -> has_column c df = true.
Proof.
  intros H. apply dict_get_Ok_In in H.
  unfold has_column. apply existsb_exists. exists c.
  split; [| apply String.eqb_refl].
  apply in_map_iff. now exists (c, s).
Qed.

Lemma select_rows_keys mask df : map fst (select_rows mask df) = map fst df.
Proof.
  unfold select_rows. rewrite map_map. apply map_ext. now intros [name s].
Qed.

Lemma dict_get_select_rows mask df c :
  dict_get (select_rows mask df) c
  = rbind (dict_get df c) (fun s => Ok (select_series mask s)).
Proof.
  induction df as [| [name s] df IH]; simpl; [reflexivity |].
  destruct (String.eqb name c); [reflexivity | exact IH].
Qed.

Lemma has_column_dict_set c (df : list (string * Series)) k v :
  has_column c (dict_set df k v) = true -> String.eqb c k = false ->
  has_column c df = true.
Proof.
  unfold has_column. intros H Hne.
  apply existsb_exists in H as (x & Hin & Hx). apply String.eqb_eq in Hx as <-.
  apply existsb_exists. exists c. split; [| apply String.eqb_refl].
  apply in_map_iff in Hin as ([name s] & Hfst & Hin). simpl in Hfst. subst name.
  induction df as [| [k0 w] df IH]; simpl in *.
  - destruct Hin as [[= -> _] | []]. rewrite String.eqb_refl in Hne. discriminate.
  - destruct (String.eqb_spec k0 k) as [-> | Hk].
    + destruct Hin as [[= -> _] | Hin].
      * rewrite String.eqb_refl in Hne. discriminate.
      * right. apply in_map_iff. now exists (c, s).
    + destruct Hin as [[= -> _] | Hin]; [now left | right; now apply IH].
Qed.

Lemma weighted_has_column x column q :
  weighted x column = Ok q -> has_column column x = true.
Proof.
  unfold weighted. intros H. inv_rbind H. now apply dict_get_has_column in Ha.
Qed.

Lemma performance_of_group_columns x perf :
  performance_of_group x = Ok perf ->
  forall c, In c ["Pts"; "GF"; "GA"; "GD"; "W"; "D"; "L"; "Pld"] ->
    has_column c x = true.
Proof.
  unfold performance_of_group. intros H.
  inv_rbind H. inv_rbind H. inv_rbind H. inv_rbind H.
  inv_rbind H. inv_rbind H. inv_rbind H. inv_rbind H.
  intros c Hc. simpl in Hc.
  repeat (destruct Hc as [<- | Hc]; [eapply weighted_has_column; eassumption |]).
  contradiction.
Qed.

Lemma insert_key_perm k l : Permutation (insert_key k l) (k :: l).
Proof.
  induction l as [| y l IH]; simpl; [reflexivity |].
  destruct (String.leb k y); [reflexivity |].
  rewrite IH. apply perm_swap.
Qed.

Lemma group_keys_perm teams :
  Permutation (group_keys teams) (List.nodup String.string_dec teams).
Proof.
  unfold group_keys. induction (List.nodup String.string_dec teams) as [| x l IH];
    simpl; [reflexivity |].
  rewrite insert_key_perm. now constructor.
Qed.

Lemma group_keys_NoDup teams : List.NoDup (group_keys teams).
Proof.
  apply (Permutation_NoDup (Permutation_sym (group_keys_perm teams))).
  apply List.NoDup_nodup.
Qed.

(** What a successful aggregation tells about its input and its result. *)
Lemma groupby_apply_Ok data tp :
  groupby_apply data = Ok tp ->
  exists team_column teams,
    dict_get data "Team" = Ok team_column /\
    strings team_column = Ok teams /\
    dict_get tp "Team" = Ok (StrCol (group_keys teams)) /\
    has_column "GF" tp = true /\ has_column "Pld" tp = true /\
    forall c, In c ["Pts"; "GF"; "GA"; "GD"; "W"; "D"; "L"; "Pld"] ->
      has_column c data = true.
Proof.
  unfold groupby_apply. intros H.
  inv_rbind H. inv_rbind H. rename a into team_column, a0 into teams.
  exists team_column, teams. split; [assumption |]. split; [assumption |].
  destruct (group_keys teams) as [| key keys] eqn:Ekeys; [discriminate |].
  inv_rbind H. injection H as <-.
  split; [reflexivity |]. split; [reflexivity |]. split; [reflexivity |].
  simpl in Ha1. inv_rbind Ha1.
  intros c Hc.
  pose proof (performance_of_group_columns _ _ Ha2 c Hc) as Hcol.
  unfold has_column in *. now rewrite select_rows_keys in Hcol.
Qed.

Lemma load_module_Ok csv printed g :
  load_module csv = Ok (printed, g) ->
  exists s0 season team_column teams,
    dict_get csv "Season" = Ok s0 /\
    numbers s0 = Ok season /\
    data g = dict_set csv "SeasonWeight" (NumCol (map SeasonWeight season)) /\
    dict_get (data g) "Team" = Ok team_column /\
    strings team_column = Ok teams /\
    dict_get (team_performance g) "Team" = Ok (StrCol (group_keys teams)) /\
    forall c, In c ["Pts"; "GF"; "GA"; "GD"; "W"; "D"; "L"; "Pld"] ->
      has_column c (data g) = true.
Proof.
  unfold load_module. intros H.
  inv_rbind H. inv_rbind H. inv_rbind H.
  rename a into s0, a0 into season, a1 into tp.
  destruct (groupby_apply_Ok _ _ Ha1)
    as (team_column & teams & Hteam & Hstr & Htp & HGF & HPld & Hcols).
  rewrite HGF, HPld in H. cbn [andb] in H.
  inv_rbind H. destruct a as [printed' tp'].
  inv_rbind Ha2. inv_rbind Ha2. inv_rbind Ha2. injection Ha2 as <- <-.
  inv_rbind H. injection H as <- <-.
  exists s0, season, team_column, teams. cbn [data team_performance].
  repeat split; try assumption.
  rewrite !dict_get_dict_set. simpl. exact Htp.
Qed.

(** Every required column is present whenever the module loads. *)
Lemma load_module_columns csv printed g :
  load_module csv = Ok (printed, g) ->
  forall c, In c required_columns -> has_column c csv = true.
Proof.
  intros Hload c Hc.
  destruct (load_module_Ok _ _ _ Hload)
    as (s0 & season & team_column & teams & Hs & _ & Hdata & Hteam & _ & _ & Hcols).
  rewrite Hdata in Hteam, Hcols.
  unfold required_columns in Hc. simpl in Hc.
  destruct Hc as [<- | Hc]; [now apply dict_get_has_column in Hs |].
  destruct Hc as [<- | Hc].
  { apply dict_get_has_column in Hteam.
    now apply has_column_dict_set in Hteam. }
  eapply has_column_dict_set; [apply Hcols; simpl; tauto |].
  repeat (destruct Hc as [<- | Hc]; [reflexivity |]). contradiction.
Qed.

(** C6, as the code has it. When a required column is absent from the
    records, loading stops with an exception: no profile mapping, empty or
    not, is produced. *)
Theorem missing_column_aborts_load (csv : list (string * Series)) (c : string) :
  In c required_columns -> has_column c csv = false ->
  exists e, load_module csv = Raise e.
Proof.
  intros Hc Habsent.
  destruct (load_module csv) as [[printed g] | e] eqn:Hload; [| eauto].
  rewrite (load_module_columns _ _ _ Hload c Hc) in Habsent. discriminate.
Qed.

Lemma missing_column_aborts_load_witness :
  exists e, load_module standings_without_Pld = Raise e.
Proof.
  apply (missing_column_aborts_load standings_without_Pld "Pld").
  - unfold required_columns. simpl. tauto.
  - vm_compute. reflexivity.
Defined.

(** C6, the claim as stated fails. Without the column of matches played the
    module does not load with an empty mapping: the aggregation raises the
    key error for [Pld]. *)
Lemma missing_Pld_raises_KeyError :
  has_column "Pld" standings_without_Pld = false /\
  load_module standings_without_Pld = Raise (KeyError "Pld") /\
  ~ (exists printed g,
       load_module standings_without_Pld = Ok (printed, g) /\ team_stats_dict g = ∅).
Proof.
  assert (H : load_module standings_without_Pld = Raise (KeyError "Pld"))
    by (vm_compute; reflexivity).
  split; [vm_compute; reflexivity |]. split; [exact H |].
  intros (printed & g & Hload & _). rewrite H in Hload. discriminate.
Qed.

Lemma strings_select_series mask s v :
  strings s = Ok v -> exists v', strings (select_series mask s) = Ok v'.
Proof.
  destruct s as [[| x l] | l]; simpl; intros H; try discriminate.
  - exists []. now destruct mask.
  - eauto.
Qed.

(** After a successful load the teams of the latest season are found, and
    no team is listed twice. *)
Lemma historical_teams_of_Ok csv printed g :
  load_module csv = Ok (printed, g) ->
  exists historical_teams,
    historical_teams_of g = Ok historical_teams /\ List.NoDup historical_teams.
Proof.
  intros Hload.
  destruct (load_module_Ok _ _ _ Hload)
    as (s0 & season & team_column & teams & Hs & Hnum & Hdata & Hteam & Hstr & Htp & _).
  unfold historical_teams_of.
  assert (Hseason : dict_get (data g) "Season" = Ok s0).
  { rewrite Hdata, dict_get_dict_set. simpl. exact Hs. }
  rewrite Hseason. cbn [rbind]. rewrite Hnum. cbn [rbind].
  rewrite dict_get_select_rows, Hteam. cbn [rbind].
  match goal with
  | |- context [select_series ?m team_column] =>
      destruct (strings_select_series m team_column teams Hstr) as [valid_teams Hvalid]
  end.
  rewrite Hvalid. cbn [rbind]. rewrite Htp. cbn [rbind strings].
  eexists. split; [reflexivity |].
  apply List.NoDup_filter, group_keys_NoDup.
Qed.

(** C4, as the code has it. After a successful load, [simulate_season]
    computes one average position for every team of the latest season, each
    between 1 and the number of teams; the table it prints is these entries
    sorted by ascending average position and cut to the first ten rows, so
    it has an entry for every team exactly when there are at most ten
    teams. *)
Theorem simulate_season_table
    (csv : list (string * Series)) (printed : list line) (g : Globals)
    (team_name : string) (rs : RandomState) :
  load_module csv = Ok (printed, g) ->
  exists historical_teams averages rs',
    historical_teams_of g = Ok historical_teams /\
    List.NoDup historical_teams /\
    map fst averages = historical_teams /\
    (forall team avg, In (team, avg) averages ->
       1 <= avg <= inject_Z (Z.of_nat (length historical_teams))) /\
    Permutation (sort_values averages) averages /\
    let table := firstn 10 (sort_values averages) in
    simulate_season g team_name rs
    = Ok (MsgStandings table
          :: (if negb (existsb (String.eqb team_name) (map fst table))
              then [MsgNotInTop10 team_name] else []),
          rs') /\
    StronglySorted (fun a b : string * Q => snd a <= snd b) table /\
    length table = Nat.min 10 (length historical_teams) /\
    ((length historical_teams <= 10)%nat -> table = sort_values averages).
Proof.
  intros Hload.
  destruct (historical_teams_of_Ok _ _ _ Hload) as (teams & Hteams & Hnd).
  destruct (simulate_season_of_spec (team_stats_dict g) teams team_name rs Hnd)
    as (fr & rs' & Hinv & Hrun).
  exists teams, (average_positions fr), rs'.
  split; [exact Hteams |]. split; [exact Hnd |].
  assert (Hkeys : map fst (average_positions fr) = teams).
  { rewrite average_positions_keys. apply Hinv. }
  split; [exact Hkeys |].
  split.
  { intros team avg Hin.
    apply (average_positions_bounds teams num_simulations fr team avg Hnd);
      [discriminate | exact Hinv | exact Hin]. }
  split; [apply sort_values_perm |].
  assert (Hlen : length (sort_values (average_positions fr)) = length teams).
  { rewrite (Permutation_length (sort_values_perm _)).
    rewrite <- Hkeys. now rewrite length_map. }
  cbv zeta.
  split.
  { unfold simulate_season, bind, lift. rewrite Hteams. exact Hrun. }
  split; [apply firstn_sorted, sort_values_sorted |].
  split; [rewrite List.length_firstn; now rewrite Hlen |].
  intros Hle. apply firstn_all2. now rewrite Hlen.
Qed.

Lemma simulate_season_table_witness :
  exists (historical_teams : list string) (averages : list (string * Q)),
    map fst averages = historical_teams /\
    (forall team avg, In (team, avg) averages ->
       1 <= avg <= inject_Z (Z.of_nat (length historical_teams))).
Proof.
  assert (Hload : exists printed g, load_module standings_sample = Ok (printed, g)).
  { vm_compute. eexists _, _. reflexivity. }
  destruct Hload as (printed & g & Hload).
  destruct (simulate_season_table standings_sample printed g "A"
              (mkRandomState (fun _ => 0%N) 0) Hload)
    as (teams & averages & _ & _ & _ & Hkeys & Hbounds & _).
  exists teams, averages. split; assumption.
Defined.

(** C4, the claim as stated fails. With eleven teams in the latest season
    the table of [simulate_season] has ten rows: the team ranked last has no
    entry in it. *)
Lemma eleven_teams_table_has_ten_rows :
  load_module standings_eleven = Ok ([], globals_eleven) /\
  historical_teams_of globals_eleven
  = Ok ["T01"; "T02"; "T03"; "T04"; "T05"; "T06"; "T07"; "T08"; "T09"; "T10"; "T11"] /\
  exists table,
    simulate_season globals_eleven "T11" (mkRandomState (fun _ => 0%N) 0)
    = Ok ([MsgStandings table; MsgNotInTop10 "T11"], mkRandomState (fun _ => 0%N) 0) /\
    map fst table = ["T01"; "T02"; "T03"; "T04"; "T05"; "T06"; "T07"; "T08"; "T09"; "T10"] /\
    ~ In "T11" (map fst table).
Proof.
  split; [vm_compute; reflexivity |].
  split; [vm_compute; reflexivity |].
  exists [("T01", 1000 # 1000); ("T02", 2000 # 1000); ("T03", 3000 # 1000);
          ("T04", 4000 # 1000); ("T05", 5000 # 1000); ("T06", 6000 # 1000);
          ("T07", 7000 # 1000); ("T08", 8000 # 1000); ("T09", 9000 # 1000);
          ("T10", 10000 # 1000)].
  split; [vm_compute; reflexivity |].
  split; [reflexivity |].
  simpl. intuition discriminate.
Qed.

(** * Further properties of the module *)

(** ** The aggregation *)

Lemma map_result_Forall2 {A B} (f : A -> result B) (l : list A) (rows : list B) :
  map_result f l = Ok rows -> Forall2 (fun x y => f x = Ok y) l rows.
Proof.
  revert rows. induction l as [| x l IH]; intros rows H; simpl in H.
  - injection H as <-. constructor.
  - inv_rbind H. inv_rbind H. injection H as <-. constructor; auto.
Qed.

Lemma map_result_total {A B} (f : A -> result B) (l : list A) :
  (forall x, In x l -> exists y, f x = Ok y) -> exists rows, map_result f l = Ok rows.
Proof.
  induction l as [| x l IH]; intros H; simpl.
  - eauto.
  - destruct (H x (or_introl eq_refl)) as [y Hy]. rewrite Hy. cbn [rbind].
    destruct IH as [rows Hrows]; [intros; apply H; now right |].
    rewrite Hrows. cbn [rbind]. eauto.
Qed.

Lemma list_to_map_dict_get {V} (l : list (string * V)) (k : string) :
  (list_to_map l : gmap string V) !! k
  = match dict_get l k with Ok v => Some v | Raise _ => None end.
Proof.
  induction l as [| [k0 v] l IH].
  - apply lookup_empty.
  - rewrite list_to_map_cons. cbn [dict_get].
    destruct (String.eqb_spec k0 k) as [-> | Hne].
    + apply lookup_insert_eq.
    + rewrite lookup_insert_ne by assumption. exact IH.
Qed.

Lemma zip_stats_rows (keys : list string) (rows : list Performance) :
  zip_stats keys (map (fun r => GF r / Pld r) rows)
                 (map (fun r => GA r / Pld r) rows)
                 (map (fun r => W r / Pld r) rows)
  = map (fun '(k, r) => (k, stats_of_performance r)) (combine keys rows).
Proof.
  revert rows. induction keys as [| k keys IH]; intros [| r rows]; simpl;
    try reflexivity.
  now rewrite IH.
Qed.

Lemma ratio_rows (f g : Performance -> Q) (rows : list Performance) :
  map (fun '(x, y) => x / y) (combine (map f rows) (map g rows))
  = map (fun r => f r / g r) rows.
Proof.
  induction rows as [| r rows IH]; simpl; [reflexivity | now rewrite IH].
Qed.

(** The shape of a successful aggregation: one row per key, each computed
    from the rows of that key. *)
Lemma groupby_apply_shape data tp :
  groupby_apply data = Ok tp ->
  exists team_column teams rows,
    dict_get data "Team" = Ok team_column /\
    strings team_column = Ok teams /\
    group_keys teams <> [] /\
    map_result (fun key => performance_of_group (group_of data teams key))
               (group_keys teams) = Ok rows /\
    tp = [("Team", StrCol (group_keys teams));
          ("Weighted_Pts", NumCol (map Weighted_Pts rows));
          ("GF", NumCol (map GF rows));
          ("GA", NumCol (map GA rows));
          ("GD", NumCol (map GD rows));
          ("W", NumCol (map W rows));
          ("D", NumCol (map D rows));
          ("L", NumCol (map L rows));
          ("Pld", NumCol (map Pld rows))].
Proof.
  unfold groupby_apply. intros H.
  inv_rbind H. inv_rbind H. rename a into team_column, a0 into teams.
  exists team_column, teams.
  destruct (group_keys teams) as [| key keys] eqn:Ekeys; [discriminate |].
  inv_rbind H. injection H as <-.
  exists a. repeat split; try assumption. discriminate.
Qed.

(** What the module-level code computes after the aggregation. *)
Lemma load_module_after_groupby csv s0 season keys rows :
  dict_get csv "Season" = Ok s0 -> numbers s0 = Ok season ->
  groupby_apply (dict_set csv "SeasonWeight" (NumCol (map SeasonWeight season)))
  = Ok [("Team", StrCol keys);
        ("Weighted_Pts", NumCol (map Weighted_Pts rows));
        ("GF", NumCol (map GF rows));
        ("GA", NumCol (map GA rows));
        ("GD", NumCol (map GD rows));
        ("W", NumCol (map W rows));
        ("D", NumCol (map D rows));
        ("L", NumCol (map L rows));
        ("Pld", NumCol (map Pld rows))] ->
  exists g,
    load_module csv = Ok ([], g) /\
    data g = dict_set csv "SeasonWeight" (NumCol (map SeasonWeight season)) /\
    team_stats_dict g
    = list_to_map (map (fun '(k, r) => (k, stats_of_performance r)) (combine keys rows)).
Proof.
  intros Hs Hn Hg. unfold load_module.
  rewrite Hs. cbn [rbind]. rewrite Hn. cbn [rbind]. rewrite Hg. cbn [rbind].
  cbn -[Qdiv list_to_map].
  rewrite !ratio_rows.
  eexists. split; [reflexivity |]. split; [reflexivity |].
  cbn [team_stats_dict]. now rewrite zip_stats_rows.
Qed.

Lemma dict_get_combine {B V} (P : string -> B -> Prop) (f : B -> V)
    (keys : list string) (rows : list B) (t : string) :
  Forall2 P keys rows ->
  (In t keys ->
     exists r, P t r /\
       dict_get (map (fun '(k, r) => (k, f r)) (combine keys rows)) t = Ok (f r)) /\
  (~ In t keys ->
     dict_get (map (fun '(k, r) => (k, f r)) (combine keys rows)) t = Raise (KeyError t)).
Proof.
  induction 1 as [| k r keys rows Hkr _ IH]; simpl.
  - split; [contradiction | reflexivity].
  - destruct IH as [IHin IHout].
    destruct (String.eqb_spec k t) as [-> | Hne].
    + split; [intros _; eauto | intros Hn; exfalso; apply Hn; now left].
    + split.
      * intros [? | Hin]; [contradiction | now apply IHin].
      * intros Hn. apply IHout. tauto.
Qed.

Lemma in_group_keys teams t : In t (group_keys teams) <-> In t teams.
Proof.
  rewrite <- (List.nodup_In String.string_dec teams t).
  split; apply Permutation_in;
    [apply group_keys_perm | apply Permutation_sym, group_keys_perm].
Qed.

(** Everything a successful load fixes: nothing is printed, the data frame
    gets the weights, and the dictionary holds, for each key of the
    aggregation, the ratios of that key's row. *)
Lemma load_module_inv csv printed g :
  load_module csv = Ok (printed, g) ->
  exists s0 season team_column teams rows,
    printed = [] /\
    dict_get csv "Season" = Ok s0 /\ numbers s0 = Ok season /\
    data g = dict_set csv "SeasonWeight" (NumCol (map SeasonWeight season)) /\
    dict_get csv "Team" = Ok team_column /\ strings team_column = Ok teams /\
    Forall2 (fun key r => performance_of_group (group_of (data g) teams key) = Ok r)
            (group_keys teams) rows /\
    team_stats_dict g
    = list_to_map (map (fun '(k, r) => (k, stats_of_performance r))
                       (combine (group_keys teams) rows)).
Proof.
  intros Hload. pose proof Hload as H. unfold load_module in H.
  inv_rbind H. inv_rbind H. inv_rbind H. clear H.
  rename a into s0, a0 into season, a1 into tp.
  destruct (groupby_apply_shape _ _ Ha1)
    as (team_column & teams & rows & Hteam & Hstr & Hne & Hrows & ->).
  destruct (load_module_after_groupby csv s0 season _ rows Ha Ha0 Ha1)
    as (g' & Hload' & Hdata & Hdict).
  rewrite Hload in Hload'. injection Hload' as -> <-.
  exists s0, season, team_column, teams, rows.
  split; [reflexivity |]. split; [assumption |]. split; [assumption |].
  split; [assumption |].
  rewrite dict_get_dict_set in Hteam. simpl in Hteam.
  split; [assumption |]. split; [assumption |].
  split; [| assumption].
  rewrite Hdata. now apply map_result_Forall2.
Qed.

Lemma load_module_profiles_cover_teams_aux csv printed g :
  load_module csv = Ok (printed, g) ->
  exists team_column teams,
    dict_get csv "Team" = Ok team_column /\
    strings team_column = Ok teams /\
    forall team, In team teams <-> is_Some (team_stats_dict g !! team).
Proof.
  intros Hload.
  destruct (load_module_inv _ _ _ Hload)
    as (s0 & season & team_column & teams & rows
        & Hp & _ & _ & _ & Hteam & Hstr & Hrows & Hdict).
  exists team_column, teams.
  split; [exact Hteam |]. split; [exact Hstr |].
  intros team. rewrite Hdict, list_to_map_dict_get, <- in_group_keys.
  destruct (dict_get_combine _ stats_of_performance _ _ team Hrows) as [Hin Hout].
  split.
  - intros Hk. destruct (Hin Hk) as (r & _ & ->). eauto.
  - intros Hsome. destruct (in_dec String.string_dec team (group_keys teams)) as [Hk | Hk];
      [exact Hk |].
    rewrite (Hout Hk) in Hsome. now destruct Hsome.
Qed.

(** X1. Whenever the module loads, it prints nothing (the message about
    missing [GF] or [Pld] columns never appears), and [team_stats_dict] has
    a profile for exactly the teams named in the [Team] column. *)
Theorem load_module_profiles_cover_teams
    (csv : list (string * Series)) (printed : list line) (g : Globals) :
  load_module csv = Ok (printed, g) ->
  printed = [] /\
  exists team_column teams,
    dict_get csv "Team" = Ok team_column /\
    strings team_column = Ok teams /\
    forall team, In team teams <-> is_Some (team_stats_dict g !! team).
Proof.
  intros Hload. split.
  - destruct (load_module_inv _ _ _ Hload) as (? & ? & ? & ? & ? & Hp & _). exact Hp.
  - apply (load_module_profiles_cover_teams_aux _ _ _ Hload).
Qed.

Lemma load_module_profiles_cover_teams_witness :
  exists g,
    load_module standings_sample = Ok ([], g) /\
    is_Some (team_stats_dict g !! "C").
Proof.
  assert (Hload : exists g, load_module standings_sample = Ok ([], g)).
  { vm_compute. eexists. reflexivity. }
  destruct Hload as (g & Hload). exists g. split; [exact Hload |].
  destruct (load_module_profiles_cover_teams standings_sample [] g Hload)
    as (_ & team_column & teams & Hteam & Hstr & Hcover).
  apply Hcover.
  vm_compute in Hteam. injection Hteam as <-.
  vm_compute in Hstr. injection Hstr as <-.
  simpl. tauto.
Defined.




(** ** Loading a complete file *)

Lemma SeasonWeight_ge_1 x : 1 <= SeasonWeight x.
Proof.
  unfold SeasonWeight. destruct (Qlt_bool_spec x 2015) as [Hlt | Hge]; [lra |].
  assert (0 <= (x - 2015) / 5) by (apply Qle_shift_div_l; lra). lra.
Qed.

Lemma select_length {A B} (mask : list bool) (v : list A) (w : list B) :
  length v = length w -> length (select mask v) = length (select mask w).
Proof.
  revert v w. induction mask as [| b mask IH]; intros [| x v] [| y w] Hlen;
    simpl in *; try reflexivity; try discriminate.
  injection Hlen as Hlen. destruct b; simpl; auto.
Qed.

Lemma select_Forall {A} (P : A -> Prop) (mask : list bool) (v : list A) :
  Forall P v -> Forall P (select mask v).
Proof.
  intros H. revert mask. induction H as [| x v Hx _ IH]; intros [| b mask]; simpl;
    try constructor.
  destruct b; [constructor; auto | auto].
Qed.

Lemma select_key_nonempty {A} (teams : list string) (key : string) (v : list A) :
  In key teams -> length v = length teams ->
  select (map (String.eqb key) teams) v <> [].
Proof.
  revert v. induction teams as [| t teams IH]; intros [| x v] Hin Hlen;
    simpl in *; try contradiction; try discriminate.
  injection Hlen as Hlen.
  destruct (String.eqb_spec key t) as [-> | Hne]; [discriminate |].
  apply IH; [| assumption]. destruct Hin as [-> | Hin]; [contradiction | assumption].
Qed.

Lemma Qsum_weights_pos (w : list Q) :
  Forall (fun x => 1 <= x) w -> w <> [] -> 0 < Qsum w.
Proof.
  intros H Hne. destruct H as [| x w Hx Hw]; [contradiction |].
  clear Hne. simpl.
  assert (0 <= Qsum w); [| lra].
  induction Hw as [| y w Hy _ IH]; simpl; lra.
Qed.

Lemma np_average_total (a w : list Q) :
  length a = length w -> Forall (fun x => 1 <= x) w -> w <> [] ->
  exists q, np_average (NumCol a) (NumCol w) = Ok q.
Proof.
  intros Hlen Hw Hne. unfold np_average. cbn [numbers rbind].
  rewrite Hlen, Nat.eqb_refl. cbn [negb].
  pose proof (Qsum_weights_pos w Hw Hne) as Hpos.
  destruct (Qeq_bool (Qsum w) 0) eqn:E; [| eauto].
  apply Qeq_bool_iff in E. lra.
Qed.

(** X3. A complete standings frame loads: with a non-empty column of team
    names and a numeric column of the same length for the season and each
    statistic, the aggregation raises nothing (the weights are at least 1,
    so no weighted average divides by zero) and nothing is printed. *)
Theorem load_module_complete_file (csv : list (string * Series)) (teams : list string) :
  well_formed_standings csv teams ->
  exists g, load_module csv = Ok ([], g).
Proof.
  intros (Hne & Hteam & Hcols).
  destruct (Hcols "Season") as (season & Hseason & Hslen); [simpl; tauto |].
  set (data := dict_set csv "SeasonWeight" (NumCol (map SeasonWeight season))).
  assert (Hkeep : forall c, String.eqb "SeasonWeight" c = false ->
                            dict_get data c = dict_get csv c).
  { intros c Hc. unfold data. now rewrite dict_get_dict_set, Hc. }
  assert (Hweights : dict_get data "SeasonWeight"
                     = Ok (NumCol (map SeasonWeight season))).
  { unfold data. now rewrite dict_get_dict_set, String.eqb_refl. }
  assert (Hgroup : forall key, In key (group_keys teams) ->
            exists r, performance_of_group (group_of data teams key) = Ok r).
  { intros key Hkey. apply (proj1 (in_group_keys _ _)) in Hkey.
    assert (Hw : forall c, In c ["Pts"; "GF"; "GA"; "GD"; "W"; "D"; "L"; "Pld"] ->
              exists q, weighted (group_of data teams key) c = Ok q).
    { intros c Hc.
      destruct (Hcols c) as (v & Hv & Hvlen); [simpl in *; tauto |].
      unfold weighted, group_of. rewrite !dict_get_select_rows.
      rewrite Hweights, Hkeep, Hv.
      2:{ simpl in Hc. repeat (destruct Hc as [<- | Hc]; [reflexivity |]). contradiction. }
      cbn [rbind select_series].
      apply np_average_total.
      - apply select_length. rewrite length_map. congruence.
      - apply select_Forall, List.Forall_forall. intros x Hx.
        apply in_map_iff in Hx as (y & <- & _). apply SeasonWeight_ge_1.
      - apply select_key_nonempty; [assumption |]. rewrite length_map. exact Hslen. }
    unfold performance_of_group.
    destruct (Hw "Pts") as [q1 ->]; [simpl; tauto |].
    destruct (Hw "GF") as [q2 ->]; [simpl; tauto |].
    destruct (Hw "GA") as [q3 ->]; [simpl; tauto |].
    destruct (Hw "GD") as [q4 ->]; [simpl; tauto |].
    destruct (Hw "W") as [q5 ->]; [simpl; tauto |].
    destruct (Hw "D") as [q6 ->]; [simpl; tauto |].
    destruct (Hw "L") as [q7 ->]; [simpl; tauto |].
    destruct (Hw "Pld") as [q8 ->]; [simpl; tauto |].
    cbn [rbind]. eauto. }
  destruct (map_result_total _ _ Hgroup) as [rows Hrows].
  destruct (load_module_after_groupby csv (NumCol season) season (group_keys teams) rows
              Hseason eq_refl) as (g & Hload & _).
  - fold data. unfold groupby_apply.
    rewrite Hkeep by reflexivity. rewrite Hteam. cbn [rbind strings].
    destruct (group_keys teams) as [| k ks] eqn:Ek.
    + exfalso. destruct teams as [| t teams]; [contradiction |].
      assert (Hin : In t (group_keys (t :: teams))) by (apply in_group_keys; now left).
      rewrite Ek in Hin. contradiction.
    + unfold group_of in Hrows. rewrite Hrows. reflexivity.
  - eauto.
Qed.

Lemma load_module_complete_file_witness :
  exists g, load_module standings_sample = Ok ([], g).
Proof.
  apply (load_module_complete_file standings_sample ["B"; "A"; "A"; "B"; "A"; "C"]).
  split; [discriminate |]. split; [reflexivity |].
  intros c Hc. simpl in Hc.
  repeat (destruct Hc as [<- | Hc]; [eexists; split; reflexivity |]).
  contradiction.
Defined.

(** ** Computations that never draw *)

Lemma draws_nothing_ret {A} (a : A) : draws_nothing (ret a).
Proof. intros rs rs0. reflexivity. Qed.

Lemma draws_nothing_lift {A} (r : result A) : draws_nothing (lift r).
Proof. intros rs rs0. unfold lift. now destruct r. Qed.

Lemma draws_nothing_bind {A B} (m : M A) (k : A -> M B) :
  draws_nothing m -> (forall a, draws_nothing (k a)) -> draws_nothing (bind m k).
Proof.
  intros Hm Hk rs rs0. unfold bind.
  rewrite (Hm rs rs0). destruct (m rs0) as [[a rs1] | e]; simpl; [| reflexivity].
  apply Hk.
Qed.

Lemma draws_nothing_for_each {A S} (xs : list A) (body : A -> S -> M S) :
  (forall x s, In x xs -> draws_nothing (body x s)) ->
  forall s, draws_nothing (for_each xs body s).
Proof.
  induction xs as [| x xs IH]; intros Hbody s; simpl.
  - apply draws_nothing_ret.
  - apply draws_nothing_bind; [apply Hbody; now left |].
    intros s'. apply IH. intros y s'' Hy. apply Hbody. now right.
Qed.

Lemma draws_nothing_for_range {S} (n : nat) (body : S -> M S) :
  (forall s, draws_nothing (body s)) -> forall s, draws_nothing (for_range n body s).
Proof.
  intros Hbody. induction n as [| n IH]; intros s; simpl.
  - apply draws_nothing_ret.
  - apply draws_nothing_bind; [apply Hbody | exact IH].
Qed.

Lemma draws_nothing_Ok {A} (m : M A) a rs0 rs1 :
  draws_nothing m -> m rs0 = Ok (a, rs1) -> forall rs, m rs = Ok (a, rs).
Proof. intros Hm H rs. rewrite (Hm rs rs0), H. reflexivity. Qed.

Lemma simulate_match_known_draws_nothing d home away :
  is_Some (d !! home) -> is_Some (d !! away) ->
  draws_nothing (simulate_match d home away).
Proof.
  intros [hs Hh] [as_ Ha] rs rs0.
  now rewrite !(simulate_match_both_known _ _ _ _ _ _ Hh Ha).
Qed.

Lemma play_match_known_draws_nothing d home away standings :
  is_Some (d !! home) -> is_Some (d !! away) ->
  draws_nothing (play_match d home away standings).
Proof.
  intros Hh Ha. unfold play_match.
  apply draws_nothing_bind; [now apply simulate_match_known_draws_nothing |].
  intros [| |]; apply draws_nothing_lift.
Qed.

Lemma simulate_trial_known_draws_nothing d teams :
  (forall t, In t teams -> is_Some (d !! t)) ->
  draws_nothing (simulate_trial d teams).
Proof.
  intros Hknown. unfold simulate_trial.
  apply draws_nothing_for_each. intros home st Hhome.
  apply draws_nothing_for_each. intros away st' Haway.
  destruct (negb (String.eqb home away)).
  - apply play_match_known_draws_nothing; auto.
  - apply draws_nothing_ret.
Qed.

Lemma simulate_season_of_known_draws_nothing d teams team_name :
  (forall t, In t teams -> is_Some (d !! t)) ->
  draws_nothing (simulate_season_of d teams team_name).
Proof.
  intros Hknown. unfold simulate_season_of.
  apply draws_nothing_bind; [| intros; apply draws_nothing_ret].
  apply draws_nothing_for_range. intros fr. unfold season_step.
  apply draws_nothing_bind; [now apply simulate_trial_known_draws_nothing |].
  intros st. apply draws_nothing_lift.
Qed.

(** After a successful load the teams of the season are keys of the
    aggregation, so each of them has a profile. *)
Lemma historical_teams_known csv printed g historical_teams :
  load_module csv = Ok (printed, g) ->
  historical_teams_of g = Ok historical_teams ->
  forall t, In t historical_teams -> is_Some (team_stats_dict g !! t).
Proof.
  intros Hload Hteams t Ht.
  destruct (load_module_Ok _ _ _ Hload)
    as (s0 & season & team_column & teams & Hs & Hnum & Hdata & Hteam & Hstr & Htp & _).
  destruct (load_module_profiles_cover_teams_aux csv printed g Hload)
    as (team_column' & teams' & Hteam' & Hstr' & Hcover).
  assert (teams' = teams) as ->.
  { rewrite Hdata, dict_get_dict_set in Hteam. simpl in Hteam.
    rewrite Hteam in Hteam'. injection Hteam' as <-. congruence. }
  unfold historical_teams_of in Hteams.
  inv_rbind Hteams. inv_rbind Hteams. inv_rbind Hteams. inv_rbind Hteams.
  rewrite Htp in Hteams. cbn [rbind strings] in Hteams. injection Hteams as <-.
  apply List.filter_In in Ht as [Ht _].
  apply Hcover. now apply in_group_keys.
Qed.

(** X4. After a successful load [simulate_season] never draws from the
    generator: every team of the season has a profile, every match is
    decided by the threshold rule, and the printed table is the same
    whatever the state of the generator, which is left unchanged. *)
Theorem simulate_season_draws_nothing
    (csv : list (string * Series)) (printed : list line) (g : Globals)
    (team_name : string) :
  load_module csv = Ok (printed, g) ->
  exists output, forall rs, simulate_season g team_name rs = Ok (output, rs).
Proof.
  intros Hload.
  destruct (historical_teams_of_Ok _ _ _ Hload) as (teams & Hteams & Hnd).
  pose proof (historical_teams_known _ _ _ _ Hload Hteams) as Hknown.
  destruct (simulate_season_of_spec (team_stats_dict g) teams team_name
              (mkRandomState (fun _ => 0%N) 0) Hnd) as (fr & rs' & _ & Hrun).
  eexists. intros rs. unfold simulate_season, bind, lift. rewrite Hteams.
  apply (draws_nothing_Ok _ _ _ _
           (simulate_season_of_known_draws_nothing _ _ team_name Hknown) Hrun).
Qed.

Lemma simulate_season_draws_nothing_witness :
  exists g output,
    load_module standings_sample = Ok ([], g) /\
    forall rs, simulate_season g "A" rs = Ok (output, rs).
Proof.
  assert (Hload : exists g, load_module standings_sample = Ok ([], g)).
  { vm_compute. eexists. reflexivity. }
  destruct Hload as (g & Hload).
  destruct (simulate_season_draws_nothing standings_sample [] g "A" Hload)
    as (output & Hrun).
  exists g, output. split; assumption.
Defined.

(** ** Ranks *)

(** The rank appended for a team is its place in the sorted standings. *)
Lemma record_ranks_exact (sorted_teams : list (string * Z)) :
  forall (rank : Z) (final_rankings : list (string * list Z)),
    List.NoDup (map fst sorted_teams) ->
    (forall t, In t (map fst sorted_teams) -> In t (map fst final_rankings)) ->
    exists final_rankings',
      record_ranks rank sorted_teams final_rankings = Ok final_rankings' /\
      map fst final_rankings' = map fst final_rankings /\
      (forall t, ~ In t (map fst sorted_teams) ->
         dict_get final_rankings' t = dict_get final_rankings t) /\
      (forall i t, nth_error (map fst sorted_teams) i = Some t ->
         exists ranks,
           dict_get final_rankings t = Ok ranks /\
           dict_get final_rankings' t = Ok (ranks ++ [(rank + 1 + Z.of_nat i)%Z])) /\
      total_ranks final_rankings'
      = (total_ranks final_rankings
         + fold_right Z.add 0 (map (fun i => rank + 1 + Z.of_nat i) (seq 0 (length sorted_teams))))%Z.
Proof.
  induction sorted_teams as [| [team pts] rest IH]; intros rank fr Hnd Hsub.
  - exists fr. simpl. split; [reflexivity |]. split; [reflexivity |].
    split; [reflexivity |]. split; [| lia].
    intros [| i] t H; discriminate.
  - simpl in Hnd. apply List.NoDup_cons_iff in Hnd as [Hnin Hnd].
    destruct (dict_get_present fr team) as [ranks Hranks].
    { apply Hsub. now left. }
    set (fr1 := dict_set fr team (ranks ++ [(rank + 1)%Z])).
    assert (Hk1 : map fst fr1 = map fst fr).
    { apply dict_set_keys_present, Hsub. now left. }
    assert (Hget1 : forall t, dict_get fr1 t
                    = if String.eqb team t then Ok (ranks ++ [(rank + 1)%Z])
                      else dict_get fr t)
      by (intros; apply dict_get_dict_set).
    destruct (IH (rank + 1)%Z fr1 Hnd) as (fr' & Hrun & Hk & Hout & Hin & Htot).
    { intros t Hin. rewrite Hk1. apply Hsub. now right. }
    exists fr'. cbn [record_ranks]. rewrite Hranks. cbn [rbind]. fold fr1.
    split; [exact Hrun |]. split; [now rewrite Hk |]. split; [| split].
    + intros t Hnot. cbn [map fst In] in Hnot.
      rewrite Hout by tauto. rewrite Hget1.
      destruct (String.eqb_spec team t); [tauto | reflexivity].
    + intros [| i] t Hnth; cbn [map fst nth_error] in Hnth.
      * injection Hnth as <-. exists ranks.
        rewrite (Hout team Hnin), Hget1, String.eqb_refl.
        split; [assumption |]. do 3 f_equal. lia.
      * destruct (Hin i t Hnth) as (ranks' & G1 & G').
        assert (Ht : In t (map fst rest)) by (eapply nth_error_In; eassumption).
        rewrite Hget1 in G1.
        destruct (String.eqb_spec team t) as [-> | _]; [contradiction |].
        exists ranks'. split; [assumption |]. rewrite G'. do 3 f_equal. lia.
    + rewrite Htot. cbn [length seq map fold_right].
      rewrite <- seq_shift, map_map.
      assert (Hfr1 : total_ranks fr1 = (total_ranks fr + (rank + 1))%Z).
      { unfold fr1. clear - Hranks. unfold total_ranks.
        induction fr as [| [k0 w] fr IHfr]; simpl in *; [discriminate |].
        destruct (String.eqb_spec k0 team) as [-> | Hne]; simpl.
        - injection Hranks as ->. rewrite fold_right_app. simpl.
          assert (forall l a, fold_right Z.add a l = (fold_right Z.add 0 l + a)%Z) as Hfold.
          { induction l; intros; simpl; [lia | rewrite IHl; lia]. }
          rewrite (Hfold ranks). lia.
        - rewrite (IHfr Hranks). lia. }
      rewrite Hfr1.
      assert (Hmap : map (fun x => (rank + 1 + 1 + Z.of_nat x)%Z) (seq 0 (length rest))
                     = map (fun x => (rank + 1 + Z.of_nat (S x))%Z) (seq 0 (length rest))).
      { apply map_ext. intros. lia. }
      rewrite Hmap. lia.
Qed.

Lemma sum_first_ranks (n : nat) :
  (2 * fold_right Z.add 0 (map (fun i => 0 + 1 + Z.of_nat i) (seq 0 n))
   = Z.of_nat n * (Z.of_nat n + 1))%Z.
Proof.
  induction n as [| n IH]; [reflexivity |].
  rewrite seq_S, map_app, fold_right_app. cbn [map fold_right Nat.add].
  assert (forall l a, fold_right Z.add a l = (fold_right Z.add 0 l + a)%Z) as Hfold.
  { induction l; intros; simpl; [lia | rewrite IHl; lia]. }
  rewrite Hfold. nia.
Qed.

Lemma rankings_after_lengths teams k fr :
  List.NoDup teams -> rankings_after teams k fr ->
  Forall (fun item : string * list Z => length (snd item) = k) fr.
Proof.
  intros Hnd [Hkeys Hranks]. apply List.Forall_forall. intros [t ranks] Hin.
  assert (Ht : In t teams).
  { rewrite <- Hkeys. apply in_map_iff. now exists (t, ranks). }
  destruct (Hranks t Ht) as (ranks' & G & Hlen & _).
  rewrite (dict_get_NoDup fr t ranks) in G; [| now rewrite Hkeys | exact Hin].
  injection G as <-. exact Hlen.
Qed.

Lemma Qsum_average_positions fr k :
  k <> O -> Forall (fun item : string * list Z => length (snd item) = k) fr ->
  Qsum (map snd (average_positions fr))
  == inject_Z (total_ranks fr) / inject_Z (Z.of_nat k).
Proof.
  intros Hk Hall.
  assert (HkQ : ~ inject_Z (Z.of_nat k) == 0).
  { change 0 with (inject_Z 0). rewrite inject_Z_injective. lia. }
  induction Hall as [| [t ranks] fr Hlen _ IH].
  - unfold total_ranks. simpl. field. exact HkQ.
  - unfold average_positions in *. cbn [map snd Qsum fold_right] in *.
    fold (Qsum (map snd (map (fun '(team, ranks0) => (team, np_mean ranks0)) fr))).
    rewrite IH. unfold np_mean, total_ranks. cbn [map snd fold_right].
    simpl in Hlen. rewrite Hlen, inject_Z_plus. field. exact HkQ.
Qed.

Lemma season_step_total d teams k fr rs :
  List.NoDup teams -> rankings_after teams k fr ->
  exists fr' rs',
    season_step d teams fr rs = Ok (fr', rs') /\
    rankings_after teams (S k) fr' /\
    (2 * total_ranks fr'
     = 2 * total_ranks fr + Z.of_nat (length teams) * (Z.of_nat (length teams) + 1))%Z.
Proof.
  intros Hnd Hinv.
  destruct (season_step_spec d teams k fr rs Hnd Hinv) as (fr' & rs' & Hrun & Hinv').
  exists fr', rs'. split; [exact Hrun |]. split; [exact Hinv' |].
  unfold season_step, bind, lift in Hrun.
  destruct (simulate_trial_run d teams rs Hnd)
    as (results & standings & rs1 & _ & _ & Htrial & Hst & _ & _).
  rewrite Htrial in Hrun.
  pose proof (sorted_desc_perm standings) as Hperm.
  assert (Hpk : Permutation (map fst (sorted_desc standings)) teams).
  { rewrite <- Hst. now apply Permutation_map. }
  destruct (record_ranks_exact (sorted_desc standings) 0%Z fr)
    as (fr2 & Hrec & _ & _ & _ & Htot).
  { apply (Permutation_NoDup (Permutation_sym Hpk) Hnd). }
  { intros t Hin. destruct Hinv as [-> _]. now apply (Permutation_in _ Hpk). }
  rewrite Hrec in Hrun. injection Hrun as <- <-.
  rewrite Htot, (Permutation_length Hperm).
  rewrite <- Hst, length_map.
  pose proof (sum_first_ranks (length standings)). lia.
Qed.

(** X6. Whatever the profiles and the generator, the average positions
    computed by the season simulator (one per team, before the table is cut
    to ten rows) add up to n(n+1)/2 for n teams: in every simulated season
    each of the ranks 1 to n is given to exactly one team. *)
Theorem average_positions_sum
    (d : gmap string Stats) (teams : list string) (team_name : string)
    (rs : RandomState) :
  List.NoDup teams ->
  exists averages rs',
    simulate_season_of d teams team_name rs
    = Ok (MsgStandings (firstn 10 (sort_values averages))
          :: (if negb (existsb (String.eqb team_name)
                         (map fst (firstn 10 (sort_values averages))))
              then [MsgNotInTop10 team_name] else []),
          rs') /\
    map fst averages = teams /\
    2 * Qsum (map snd averages)
    == inject_Z (Z.of_nat (length teams) * (Z.of_nat (length teams) + 1)).
Proof.
  intros Hnd.
  set (n := Z.of_nat (length teams)).
  destruct (for_range_invariant
              (fun k fr => rankings_after teams k fr
                           /\ (2 * total_ranks fr = Z.of_nat k * (n * (n + 1)))%Z)
              (season_step d teams)) with (n := num_simulations) (k := O)
              (s := dict_from_keys teams ([] : list Z)) (rs := rs)
    as (fr & rs' & Hrun & Hinv & Htot).
  - intros k fr0 rs0 [Hinv Htot].
    destruct (season_step_total d teams k fr0 rs0 Hnd Hinv) as (fr' & rs' & H1 & H2 & H3).
    exists fr', rs'. split; [exact H1 |]. split; [exact H2 |]. fold n in H3.
    rewrite Nat2Z.inj_succ, Z.mul_succ_l. lia.
  - split; [now apply rankings_after_start |].
    rewrite dict_from_keys_NoDup by assumption. unfold total_ranks.
    rewrite map_map. cbn [snd fold_right Nat2Z.inj_0 Z.of_nat]. rewrite Z.mul_0_l.
    clear. generalize teams as l. induction l; simpl; lia.
  - exists (average_positions fr), rs'.
    split; [unfold simulate_season_of, bind; rewrite Hrun; reflexivity |].
    split; [rewrite average_positions_keys; apply Hinv |].
    rewrite (Qsum_average_positions fr num_simulations);
      [| discriminate | now apply (rankings_after_lengths teams)].
    simpl in Htot.
    assert (HT : inject_Z (2 * total_ranks fr)
                 == inject_Z (Z.of_nat num_simulations * (n * (n + 1))))
      by (now rewrite Htot).
    rewrite !inject_Z_mult in HT. rewrite inject_Z_mult.
    assert (HkQ : ~ inject_Z (Z.of_nat num_simulations) == 0).
    { change 0 with (inject_Z 0). rewrite inject_Z_injective. discriminate. }
    change (inject_Z 2) with 2 in HT.
    assert (E : 2 * (inject_Z (total_ranks fr) / inject_Z (Z.of_nat num_simulations))
                == (2 * inject_Z (total_ranks fr)) / inject_Z (Z.of_nat num_simulations))
      by (field; exact HkQ).
    rewrite E, HT. field. exact HkQ.
Qed.

Lemma average_positions_sum_witness :
  exists averages,
    map fst averages = ["A"; "Z"] /\
    2 * Qsum (map snd averages) == inject_Z (2 * (2 + 1)).
Proof.
  assert (Hnd : List.NoDup ["A"; "Z"]).
  { repeat constructor; simpl; intuition discriminate. }
  destruct (average_positions_sum scenario_stats ["A"; "Z"] "A"
              (mkRandomState (fun _ => 0%N) 0) Hnd) as (averages & rs' & _ & Hk & Hsum).
  exists averages. split; assumption.
Defined.

Lemma np_mean_repeat (x : Z) (k : nat) : k <> O -> np_mean (repeat x k) == inject_Z x.
Proof.
  intros Hk. unfold np_mean. rewrite repeat_length.
  assert (Hsum : fold_right Z.add 0%Z (repeat x k) = (Z.of_nat k * x)%Z).
  { clear. induction k as [| k IH]; [reflexivity |].
    cbn [repeat fold_right]. rewrite IH. lia. }
  rewrite Hsum, inject_Z_mult. field.
  change 0 with (inject_Z 0). rewrite inject_Z_injective. lia.
Qed.

(** When every team has a profile, all simulated seasons are the same
    season, and every team's list of ranks repeats its place in it. *)
Lemma known_teams_constant_ranks d teams :
  List.NoDup teams -> (forall t, In t teams -> is_Some (d !! t)) ->
  exists standings final_rankings,
    (forall rs, simulate_trial d teams rs = Ok (standings, rs)) /\
    (forall rs,
       for_range num_simulations (season_step d teams)
                 (dict_from_keys teams ([] : list Z)) rs = Ok (final_rankings, rs)) /\
    map fst final_rankings = teams /\
    Permutation (map fst (sorted_desc standings)) teams /\
    forall i t, nth_error (map fst (sorted_desc standings)) i = Some t ->
      dict_get final_rankings t = Ok (repeat (Z.of_nat i + 1)%Z num_simulations).
Proof.
  intros Hnd Hknown.
  pose (rs0 := mkRandomState (fun _ => 0%N) 0).
  destruct (simulate_trial_run d teams rs0 Hnd)
    as (results & standings & rs1 & _ & _ & Htrial0 & Hst & _ & _).
  pose proof (draws_nothing_Ok _ _ _ _
                (simulate_trial_known_draws_nothing d teams Hknown) Htrial0) as Htrial.
  pose proof (sorted_desc_perm standings) as Hperm.
  assert (Hpk : Permutation (map fst (sorted_desc standings)) teams).
  { rewrite <- Hst. now apply Permutation_map. }
  assert (Hndk : List.NoDup (map fst (sorted_desc standings)))
    by apply (Permutation_NoDup (Permutation_sym Hpk) Hnd).
  destruct (for_range_invariant
              (fun k fr => map fst fr = teams /\
                 forall i t, nth_error (map fst (sorted_desc standings)) i = Some t ->
                   dict_get fr t = Ok (repeat (Z.of_nat i + 1)%Z k))
              (season_step d teams)) with (n := num_simulations) (k := O)
              (s := dict_from_keys teams ([] : list Z)) (rs := rs0)
    as (fr & rs' & Hrun & Hkeys & Hranks).
  - intros k fr0 rs [Hkeys Hranks].
    destruct (record_ranks_exact (sorted_desc standings) 0%Z fr0 Hndk)
      as (fr' & Hrec & Hk' & _ & Hin & _).
    { intros t Ht. rewrite Hkeys. now apply (Permutation_in _ Hpk). }
    exists fr', rs. unfold season_step, bind, lift. rewrite Htrial, Hrec.
    split; [reflexivity |]. split; [now rewrite Hk' |].
    intros i t Hnth. destruct (Hin i t Hnth) as (ranks & G & G').
    rewrite (Hranks i t Hnth) in G. injection G as <-.
    rewrite G'. f_equal. cbn [repeat]. rewrite repeat_cons.
    do 2 f_equal. lia.
  - split; [now apply dict_from_keys_keys |].
    intros i t Hnth. rewrite dict_from_keys_NoDup by assumption.
    apply dict_get_NoDup.
    + rewrite map_map. simpl. now rewrite map_id.
    + apply in_map_iff. exists t. split; [reflexivity |].
      apply (Permutation_in _ Hpk). eapply nth_error_In; eassumption.
  - exists standings, fr. split; [exact Htrial |]. split.
    + apply (draws_nothing_Ok _ _ rs0 rs'); [| exact Hrun].
      apply draws_nothing_for_range. intros fr0. unfold season_step.
      apply draws_nothing_bind; [now apply simulate_trial_known_draws_nothing |].
      intros st. apply draws_nothing_lift.
    + split; [exact Hkeys |]. split; [exact Hpk | exact Hranks].
Qed.

Lemma average_of_constant_ranks (fr : list (string * list Z)) t ranks x k :
  k <> O -> dict_get fr t = Ok (repeat x k) -> dict_get fr t = Ok ranks ->
  np_mean ranks == inject_Z x.
Proof.
  intros Hk G G'. rewrite G in G'. injection G' as <-. now apply np_mean_repeat.
Qed.

Lemma In_firstn_In {A} (x : A) n l : In x (firstn n l) -> In x l.
Proof.
  intros H. rewrite <- (firstn_skipn n l). apply in_or_app. now left.
Qed.

(** X5. After a successful load the thousand simulated seasons are one and
    the same season: each average position in the printed table is a whole
    number, the place of the team in the ranking of that single season. *)
Theorem simulate_season_averages_are_ranks
    (csv : list (string * Series)) (printed : list line) (g : Globals)
    (team_name : string) :
  load_module csv = Ok (printed, g) ->
  exists historical_teams standings table,
    historical_teams_of g = Ok historical_teams /\
    (forall rs,
       simulate_trial (team_stats_dict g) historical_teams rs = Ok (standings, rs)) /\
    (forall rs,
       simulate_season g team_name rs
       = Ok (MsgStandings table
             :: (if negb (existsb (String.eqb team_name) (map fst table))
                 then [MsgNotInTop10 team_name] else []),
             rs)) /\
    forall team avg, In (team, avg) table ->
      exists i,
        nth_error (map fst (sorted_desc standings)) i = Some team /\
        avg == inject_Z (Z.of_nat i + 1).
Proof.
  intros Hload.
  destruct (historical_teams_of_Ok _ _ _ Hload) as (teams & Hteams & Hnd).
  pose proof (historical_teams_known _ _ _ _ Hload Hteams) as Hknown.
  destruct (known_teams_constant_ranks (team_stats_dict g) teams Hnd Hknown)
    as (standings & fr & Htrial & Hrun & Hkeys & Hpk & Hranks).
  exists teams, standings, (firstn 10 (sort_values (average_positions fr))).
  split; [exact Hteams |]. split; [exact Htrial |]. split.
  - intros rs. unfold simulate_season, bind, lift. rewrite Hteams.
    unfold simulate_season_of, bind. rewrite Hrun. reflexivity.
  - intros team avg Hin.
    apply In_firstn_In in Hin.
    apply (Permutation_in _ (sort_values_perm _)) in Hin.
    unfold average_positions in Hin.
    apply in_map_iff in Hin as ([t ranks] & [= -> <-] & Hin).
    assert (Ht : In team (map fst (sorted_desc standings))).
    { apply (Permutation_in _ (Permutation_sym Hpk)).
      rewrite <- Hkeys. apply in_map_iff. now exists (team, ranks). }
    apply In_nth_error in Ht as [i Hi]. exists i. split; [exact Hi |].
    apply (average_of_constant_ranks fr team ranks _ num_simulations).
    + discriminate.
    + exact (Hranks i team Hi).
    + apply dict_get_NoDup; [now rewrite Hkeys | exact Hin].
Qed.

Lemma simulate_season_averages_are_ranks_witness :
  exists g table,
    load_module standings_sample = Ok ([], g) /\
    forall rs, exists rest, simulate_season g "A" rs = Ok (MsgStandings table :: rest, rs).
Proof.
  assert (Hload : exists g, load_module standings_sample = Ok ([], g)).
  { vm_compute. eexists. reflexivity. }
  destruct Hload as (g & Hload).
  destruct (simulate_season_averages_are_ranks standings_sample [] g "A" Hload)
    as (teams & standings & table & _ & _ & Hrun & _).
  exists g, table. split; [exact Hload |].
  intros rs. eexists. apply Hrun.
Defined.

(** ** The size of a season *)

Lemma filter_other_absent (h : string) (l : list string) :
  ~ In h l -> List.filter (fun a => negb (String.eqb h a)) l = l.
Proof.
  induction l as [| x l IH]; intros Hn; simpl; [reflexivity |].
  destruct (String.eqb_spec h x) as [-> | Hne]; simpl.
  - exfalso. apply Hn. now left.
  - f_equal. apply IH. intros Hin. apply Hn. now right.
Qed.

Lemma length_filter_other (h : string) (l : list string) :
  List.NoDup l -> In h l ->
  length (List.filter (fun a => negb (String.eqb h a)) l) = (length l - 1)%nat.
Proof.
  induction 1 as [| x l Hnin Hnd IH]; intros Hin; [contradiction |].
  simpl. destruct (String.eqb_spec h x) as [-> | Hne]; simpl.
  - rewrite filter_other_absent by assumption. lia.
  - destruct Hin as [-> | Hin]; [contradiction |].
    rewrite IH by assumption. destruct l; [contradiction | simpl; lia].
Qed.

Lemma length_flat_map_const {A B} (f : A -> list B) (xs : list A) (m : nat) :
  (forall x, In x xs -> length (f x) = m) ->
  length (flat_map f xs) = (length xs * m)%nat.
Proof.
  induction xs as [| x xs IH]; intros H; simpl; [reflexivity |].
  rewrite length_app, (H x) by (now left).
  rewrite IH; [reflexivity |]. intros y Hy. apply H. now right.
Qed.

Lemma length_fixtures teams :
  List.NoDup teams ->
  length (fixtures teams) = (length teams * (length teams - 1))%nat.
Proof.
  intros Hnd. unfold fixtures. apply length_flat_map_const.
  intros h Hh. rewrite length_map. now apply length_filter_other.
Qed.

Lemma decisive_plus_drawn results :
  (decisive_matches results + drawn_matches results = Z.of_nat (length results))%Z.
Proof.
  unfold decisive_matches, drawn_matches.
  assert (Hsplit : forall (f : Outcome -> bool) l,
            (length (List.filter (fun o => negb (f o)) l) + length (List.filter f l)
             = length l)%nat).
  { intros f l. induction l as [| o l IH]; [reflexivity |].
    cbn [List.filter]. destruct (f o); cbn [negb length]; lia. }
  specialize (Hsplit (Outcome_eqb Draw) results). lia.
Qed.

(** X7. A simulated season of n distinct teams has n(n-1) matches, every
    team is at home n-1 times, and the points of all teams together lie
    between 2n(n-1), when every match is drawn, and 3n(n-1), when none
    is. *)
Theorem season_size_and_total_points
    (d : gmap string Stats) (teams : list string) (rs : RandomState) :
  List.NoDup teams ->
  length (fixtures teams) = (length teams * (length teams - 1))%nat /\
  (forall team, In team teams ->
     length (List.filter (fun m => String.eqb team (fst m)) (fixtures teams))
     = (length teams - 1)%nat) /\
  exists standings rs',
    simulate_trial d teams rs = Ok (standings, rs') /\
    (2 * Z.of_nat (length teams * (length teams - 1))
     <= total_points standings
     <= 3 * Z.of_nat (length teams * (length teams - 1)))%Z.
Proof.
  intros Hnd. split; [now apply length_fixtures |]. split.
  - intros team Hteam. unfold fixtures.
    assert (Hgen : forall xs, List.NoDup xs ->
              length (List.filter (fun m => String.eqb team (fst m))
                        (flat_map (fun h => map (pair h)
                           (List.filter (fun a => negb (String.eqb h a)) teams)) xs))
              = if in_dec String.string_dec team xs then (length teams - 1)%nat else O).
    { induction 1 as [| x xs Hnin Hndx IH]; [reflexivity |].
      cbn [flat_map]. rewrite List.filter_app, length_app, IH.
      assert (Hrow : forall l : list string,
                List.filter (fun m : string * string => String.eqb team (fst m))
                            (map (pair x) l)
                = if String.eqb team x then map (pair x) l else []).
      { induction l as [| a l IHl]; simpl; [now destruct (String.eqb team x) |].
        rewrite IHl. now destruct (String.eqb team x). }
      rewrite Hrow.
      destruct (String.eqb_spec team x) as [-> | Hne].
      - rewrite length_map, length_filter_other by (assumption || exact Hteam).
        destruct (in_dec String.string_dec x xs) as [Hin | _]; [contradiction |].
        destruct (in_dec String.string_dec x (x :: xs)) as [_ | Hn];
          [lia | exfalso; apply Hn; now left].
      - simpl length.
        destruct (in_dec String.string_dec team xs) as [Hin | Hn];
          destruct (in_dec String.string_dec team (x :: xs)) as [Hin' | Hn'];
          try reflexivity.
        + exfalso. apply Hn'. now right.
        + destruct Hin' as [-> | Hin']; contradiction. }
    rewrite (Hgen teams Hnd).
    destruct (in_dec String.string_dec team teams); [reflexivity | contradiction].
  - destruct (simulate_trial_run d teams rs Hnd)
      as (results & standings & rs' & _ & Hlen & Hrun & _ & _ & Htot).
    exists standings, rs'. split; [exact Hrun |].
    rewrite Htot. rewrite length_fixtures in Hlen by assumption.
    pose proof (decisive_plus_drawn results) as Hsum. rewrite Hlen in Hsum.
    assert (0 <= decisive_matches results)%Z by (unfold decisive_matches; lia).
    assert (0 <= drawn_matches results)%Z by (unfold drawn_matches; lia).
    lia.
Qed.

Lemma season_size_and_total_points_witness :
  length (fixtures ["A"; "B"; "Z"]) = 6%nat /\
  exists standings rs',
    simulate_trial scenario_stats ["A"; "B"; "Z"] (mkRandomState (fun _ => 0%N) 0)
    = Ok (standings, rs') /\
    (12 <= total_points standings <= 18)%Z.
Proof.
  assert (Hnd : List.NoDup ["A"; "B"; "Z"]).
  { repeat constructor; simpl; intuition discriminate. }
  destruct (season_size_and_total_points scenario_stats ["A"; "B"; "Z"]
              (mkRandomState (fun _ => 0%N) 0) Hnd)
    as (Hlen & _ & standings & rs' & Hrun & Hbounds).
  split; [exact Hlen |]. exists standings, rs'. split; [exact Hrun | exact Hbounds].
Defined.

(** ** Ranking with ties *)

Lemma insert_desc_sorted x l :
  StronglySorted (fun a b : string * Z => (snd b <= snd a)%Z) l ->
  StronglySorted (fun a b : string * Z => (snd b <= snd a)%Z) (insert_desc x l).
Proof.
  induction 1 as [| y l Hs IH Hy]; simpl.
  - constructor; constructor.
  - destruct (Z.ltb_spec (snd x) (snd y)) as [Hlt | Hge].
    + constructor; [exact IH |].
      apply (Permutation_Forall (Permutation_sym (insert_desc_perm x l))).
      constructor; [lia | exact Hy].
    + constructor; [now constructor |].
      constructor; [lia |].
      eapply List.Forall_impl; [| exact Hy]. simpl. intros a Ha. lia.
Qed.

Lemma insert_desc_level (p : Z) x l :
  List.filter (fun item => (snd item =? p)%Z) (insert_desc x l)
  = List.filter (fun item => (snd item =? p)%Z) (x :: l).
Proof.
  induction l as [| y l IH]; [reflexivity |].
  cbn [insert_desc]. destruct (Z.ltb_spec (snd x) (snd y)) as [Hlt | Hge];
    [| reflexivity].
  cbn [List.filter] in *. rewrite IH.
  destruct (Z.eqb_spec (snd x) p) as [Hx | Hx];
    destruct (Z.eqb_spec (snd y) p) as [Hy | Hy]; try reflexivity.
  lia.
Qed.

(** X8. The ranking of a season is the standings in descending order of
    points, and teams level on points keep the order they have in the
    standings, that is the order of the team list: no other tie-break is
    applied. *)
Theorem sorted_desc_descending_and_stable (standings : list (string * Z)) :
  Permutation (sorted_desc standings) standings /\
  StronglySorted (fun a b : string * Z => (snd b <= snd a)%Z) (sorted_desc standings) /\
  forall points,
    List.filter (fun item => (snd item =? points)%Z) (sorted_desc standings)
    = List.filter (fun item => (snd item =? points)%Z) standings.
Proof.
  split; [apply sorted_desc_perm |]. split.
  - induction standings as [| x l IH]; simpl; [constructor | now apply insert_desc_sorted].
  - intros p. induction standings as [| x l IH]; [reflexivity |].
    cbn [sorted_desc fold_right]. fold (sorted_desc l).
    rewrite insert_desc_level. cbn [List.filter]. now rewrite IH.
Qed.

(** ** The head-to-head draw *)














(** ** The menu and the worker script *)

(** X13. Every command the menu of [cli_script.py] hands to the worker
    script is accepted by the worker's command line: called with the
    arguments after the interpreter, [main] prints the header, runs the
    analysis that matches the menu entry for the same team (and the same
    opponent for entry 3) and, when that analysis returns, ends with status
    0; the complaints about missing arguments, a missing opponent or an
    invalid option cannot occur. *)
Theorem menu_command_runs_matching_analysis
    (shuffle : list string -> list string) (g : Globals)
    (matches_df : list (string * Series))
    (executable script : string) (unique_teams : list string)
    (team_name user_choice opponent_team : string) (args : list string)
    (rs : RandomState) :
  menu_choice executable script unique_teams team_name user_choice opponent_team
  = RunSubprocess args ->
  (user_choice = "1" /\
   main shuffle g matches_df (tl args) rs
   = Ok ((FromMain (MsgRunningAnalysis team_name "home_away")
          :: map FromHomeAway (analyze_home_away (team_stats_dict g) team_name), 0%Z), rs))
  \/
  (user_choice = "2" /\
   main shuffle g matches_df (tl args) rs
   = bind (show_matches shuffle (team_stats_dict g) matches_df team_name)
          (fun out => ret (FromMain (MsgRunningAnalysis team_name "matches")
                           :: map FromMatches out, 0%Z)) rs)
  \/
  (user_choice = "3" /\ In opponent_team unique_teams /\
   main shuffle g matches_df (tl args) rs
   = bind (simulate_head_to_head (team_stats_dict g) team_name opponent_team)
          (fun out => ret (FromMain (MsgRunningAnalysis team_name "head_to_head")
                           :: map FromSimulation (fst out), 0%Z)) rs)
  \/
  (user_choice = "4" /\
   main shuffle g matches_df (tl args) rs
   = bind (simulate_season g team_name)
          (fun out => ret (FromMain (MsgRunningAnalysis team_name "league_standings")
                           :: map FromSimulation out, 0%Z)) rs).
Proof.
  unfold menu_choice. intros H.
  destruct (String.eqb_spec user_choice "1") as [-> | _].
  { injection H as <-. left. split; reflexivity. }
  destruct (String.eqb_spec user_choice "2") as [-> | _].
  { injection H as <-. right. left. split; reflexivity. }
  destruct (String.eqb_spec user_choice "3") as [-> | _].
  { destruct (existsb (String.eqb opponent_team) unique_teams) eqn:E; [| discriminate].
    cbn [negb] in H. injection H as <-. right. right. left.
    split; [reflexivity |]. split; [| reflexivity].
    apply existsb_exists in E as (x & Hx & Ex).
    apply String.eqb_eq in Ex as ->. exact Hx. }
  destruct (String.eqb_spec user_choice "4") as [-> | _]; [| discriminate].
  injection H as <-. right. right. right. split; reflexivity.
Qed.

Lemma menu_command_runs_matching_analysis_witness :
  main (fun l => l) globals_eleven [] ["worker.py"; "T01"; "home_away"]
       (mkRandomState (fun _ => 0%N) 0)
  = Ok ((FromMain (MsgRunningAnalysis "T01" "home_away")
         :: map FromHomeAway (analyze_home_away (team_stats_dict globals_eleven) "T01"), 0%Z),
        mkRandomState (fun _ => 0%N) 0).
Proof.
  destruct (menu_command_runs_matching_analysis (fun l => l) globals_eleven []
              "python" "worker.py" ["T01"; "T02"] "T01" "1" ""
              ["python"; "worker.py"; "T01"; "home_away"]
              (mkRandomState (fun _ => 0%N) 0) eq_refl)
    as [[_ H] | [[E _] | [[E _] | [E _]]]]; [exact H | | |]; discriminate.
Defined.

(** ** [show_matches] *)

Lemma has_column_dict_get (df : list (string * Series)) c :
  has_column c df = true -> exists s, dict_get df c = Ok s.
Proof.
  unfold has_column. intros H. apply existsb_exists in H as (x & Hin & Hx).
  apply String.eqb_eq in Hx as <-. now apply dict_get_present.
Qed.

Lemma unique_from_spec (l seen : list string) :
  List.NoDup (unique_from seen l) /\
  forall x, In x (unique_from seen l) <-> In x l /\ ~ In x seen.
Proof.
  revert seen. induction l as [| y l IH]; intros seen; simpl.
  - split; [constructor | intros x; tauto].
  - destruct (existsb (String.eqb y) seen) eqn:E.
    + destruct (IH seen) as [Hnd Hin]. split; [exact Hnd |].
      apply existsb_exists in E as (z & Hz & Ez). apply String.eqb_eq in Ez as <-.
      intros x. rewrite Hin. split; [tauto |].
      intros [[-> | Hx] Hn]; [contradiction | tauto].
    + assert (Hy : ~ In y seen).
      { intros Hy. apply Bool.not_true_iff_false in E. apply E.
        apply existsb_exists. exists y. split; [exact Hy | apply String.eqb_refl]. }
      destruct (IH (y :: seen)) as [Hnd Hin]. split.
      * constructor; [| exact Hnd]. rewrite Hin. simpl. tauto.
      * intros x. simpl. rewrite Hin. simpl.
        destruct (String.string_dec y x) as [-> | Hne]; tauto.
Qed.

Lemma NoDup_firstn {A} (n : nat) (l : list A) : List.NoDup l -> List.NoDup (firstn n l).
Proof.
  intros H. rewrite <- (firstn_skipn n l) in H. now apply List.NoDup_app_remove_r in H.
Qed.

Lemma predict_all_spec d team opponents rs :
  exists predictions rs',
    predict_all d team opponents rs = Ok (predictions, rs') /\
    map fst predictions = map (pair team) opponents.
Proof.
  revert rs. induction opponents as [| o opponents IH]; intros rs; simpl.
  - exists [], rs. split; reflexivity.
  - destruct (simulate_match_total d team o rs) as (r & rs1 & Hr).
    destruct (IH rs1) as (ps & rs' & Hps & Hmap).
    exists ((team, o, r) :: ps), rs'. unfold bind, ret. rewrite Hr, Hps.
    split; [reflexivity |]. simpl. now rewrite Hmap.
Qed.

Section ShowMatches.

Variable shuffle : list string -> list string.
Hypothesis shuffle_perm : forall l, Permutation (shuffle l) l.

(** X14. For a matches frame with the two goal columns, the date, a column
    of home names and an away column: when fewer than five other teams
    appear as home team, [show_matches] stops with the [ValueError] of
    [random.sample]; otherwise it prints the last matches and exactly five
    predictions, each with the selected team at home against a different
    opponent, no opponent twice, every opponent a team that appears as home
    team in the file. *)
Theorem show_matches_predictions
    (d : gmap string Stats) (df : list (string * Series)) (homes : list string)
    (team_name : string) (rs : RandomState) :
  has_column "HomeGoals" df = true -> has_column "AwayGoals" df = true ->
  has_column "Date" df = true -> has_column "Away" df = true ->
  dict_get df "Home" = Ok (StrCol homes) ->
  let others := List.filter (fun team => negb (String.eqb team team_name)) (unique homes) in
  ((length others < 5)%nat -> show_matches shuffle d df team_name rs = Raise ValueError) /\
  ((5 <= length others)%nat ->
     exists past_matches predictions rs',
       show_matches shuffle d df team_name rs
       = Ok ([MsgLastMatches team_name past_matches; MsgPredictedMatches predictions], rs') /\
       length predictions = 5%nat /\
       List.NoDup (map (fun p => snd (fst p)) predictions) /\
       forall home away result, In (home, away, result) predictions ->
         home = team_name /\ away <> team_name /\ In away homes).
Proof.
  intros HHG HAG HDate HAway HHome others.
  destruct (has_column_dict_get _ _ HHG) as [hg Hhg].
  destruct (has_column_dict_get _ _ HAG) as [ag Hag].
  destruct (has_column_dict_get _ _ HDate) as [date Hdate].
  destruct (has_column_dict_get _ _ HAway) as [away Haway].
  unfold show_matches. rewrite HHG, HAG. cbn [andb].
  unfold bind, lift.
  rewrite HHome, Haway.
  unfold select_columns. cbn [app map_result].
  rewrite !dict_get_select_rows, Hdate, HHome, Haway, Hhg, Hag. cbn [rbind strings].
  fold others. unfold random_sample_of.
  split.
  - intros Hlt. apply Nat.ltb_lt in Hlt. now rewrite Hlt.
  - intros Hge. apply Nat.ltb_ge in Hge. rewrite Hge.
    destruct (predict_all_spec d team_name (firstn 5 (shuffle others)) rs)
      as (ps & rs' & Hps & Hmap).
    rewrite Hps. unfold ret.
    eexists _, ps, rs'. split; [reflexivity |].
    assert (Hopp : map (fun p : string * string * Outcome => snd (fst p)) ps
                   = firstn 5 (shuffle others)).
    { rewrite <- (map_map fst snd), Hmap, map_map. simpl. apply map_id. }
    apply Nat.ltb_ge in Hge.
    assert (Hothers : List.NoDup others).
    { apply List.NoDup_filter. apply (unique_from_spec homes []). }
    split; [| split].
    + rewrite <- (length_map (fun p : string * string * Outcome => snd (fst p))), Hopp.
      rewrite List.length_firstn, (Permutation_length (shuffle_perm others)). lia.
    + rewrite Hopp. apply NoDup_firstn.
      apply (Permutation_NoDup (Permutation_sym (shuffle_perm others)) Hothers).
    + intros h a r Hin.
      assert (Hha : In (h, a) (map fst ps)).
      { apply in_map_iff. now exists (h, a, r). }
      rewrite Hmap in Hha. apply in_map_iff in Hha as (a' & [= <- <-] & Ha).
      split; [reflexivity |].
      apply In_firstn_In in Ha. apply (Permutation_in _ (shuffle_perm others)) in Ha.
      apply List.filter_In in Ha as [Ha Hne].
      apply negb_true_iff, String.eqb_neq in Hne.
      split; [exact Hne |]. now apply (unique_from_spec homes []) in Ha.
Qed.


End ShowMatches.

Lemma show_matches_predictions_witness :
  exists past_matches predictions rs',
    show_matches (fun l => l) scenario_stats matches_sample "A"
                 (mkRandomState (fun _ => 0%N) 0)
    = Ok ([MsgLastMatches "A" past_matches; MsgPredictedMatches predictions], rs') /\
    length predictions = 5%nat.
Proof.
  destruct (show_matches_predictions (fun l => l) (fun l => Permutation_refl l)
              scenario_stats matches_sample ["A"; "B"; "C"; "D"; "E"; "F"; "B"] "A"
              (mkRandomState (fun _ => 0%N) 0)
              eq_refl eq_refl eq_refl eq_refl eq_refl) as [_ Hok].
  destruct Hok as (past & ps & rs' & Hrun & Hlen & _).
  - vm_compute. lia.
  - exists past, ps, rs'. split; assumption.
Defined.


(** ** The teams of the latest season *)

Lemma series_max_fold (v : list Q) (acc : Q) :
  let m := fold_left (fun m y => if Qlt_bool m y then y else m) v acc in
  (m = acc \/ In m v) /\ acc <= m /\ forall y, In y v -> y <= m.
Proof.
  revert acc. induction v as [| x v IH]; intros acc; simpl.
  - split; [now left |]. split; [lra | contradiction].
  - destruct (Qlt_bool_spec acc x) as [Hlt | Hge].
    + destruct (IH x) as (Hm & Hle & Hall).
      split; [destruct Hm as [-> | Hm]; auto |].
      split; [lra |].
      intros y [<- | Hy]; [exact Hle | now apply Hall].
    + destruct (IH acc) as (Hm & Hle & Hall).
      split; [destruct Hm as [-> | Hm]; auto |].
      split; [exact Hle |].
      intros y [<- | Hy]; [lra | now apply Hall].
Qed.

Lemma series_max_spec (v : list Q) :
  match series_max v with
  | None => v = []
  | Some m => In m v /\ forall y, In y v -> y <= m
  end.
Proof.
  destruct v as [| x v]; [reflexivity |]. cbn [series_max].
  destruct (series_max_fold v x) as (Hm & Hle & Hall). split.
  - destruct Hm as [-> | Hm]; [now left | now right].
  - intros y [<- | Hy]; [exact Hle | now apply Hall].
Qed.

Lemma in_select {A B} (f : B -> bool) (keys : list B) (v : list A) (x : A) :
  In x (select (map f keys) v)
  <-> exists i k, nth_error v i = Some x /\ nth_error keys i = Some k /\ f k = true.
Proof.
  revert v. induction keys as [| k keys IH]; intros [| y v]; simpl.
  - split; [contradiction | intros ([| i] & k' & _ & H & _); discriminate].
  - split; [contradiction | intros ([| i] & k' & _ & H & _); discriminate].
  - split; [contradiction | intros ([| i] & k' & H & _); discriminate].
  - destruct (f k) eqn:Ek.
    + split.
      * intros [<- | Hin]; [exists O, k; now repeat split |].
        apply IH in Hin as (i & k' & H1 & H2 & H3). now exists (S i), k'.
      * intros ([| i] & k' & H1 & H2 & H3); simpl in *.
        -- injection H1 as <-. now left.
        -- right. apply IH. now exists i, k'.
    + split.
      * intros Hin. apply IH in Hin as (i & k' & H1 & H2 & H3). now exists (S i), k'.
      * intros ([| i] & k' & H1 & H2 & H3); simpl in *.
        -- injection H2 as <-. congruence.
        -- apply IH. now exists i, k'.
Qed.

Lemma strings_select_series_eq mask s v :
  strings s = Ok v -> strings (select_series mask s) = Ok (select mask v).
Proof.
  destruct s as [[| x l] | l]; simpl; intros H; try discriminate.
  - injection H as <-. now destruct mask.
  - now injection H as <-.
Qed.

(** X16. After a successful load, the teams [simulate_season] plays are
    exactly the teams that have a record in the latest season of the file
    (a season no other season exceeds), each listed once. *)
Theorem historical_teams_are_latest_season
    (csv : list (string * Series)) (printed : list line) (g : Globals) :
  load_module csv = Ok (printed, g) ->
  exists season_column season team_column teams historical_teams,
    dict_get csv "Season" = Ok season_column /\ numbers season_column = Ok season /\
    dict_get csv "Team" = Ok team_column /\ strings team_column = Ok teams /\
    historical_teams_of g = Ok historical_teams /\
    List.NoDup historical_teams /\
    forall team,
      In team historical_teams
      <-> exists i year,
            nth_error teams i = Some team /\ nth_error season i = Some year /\
            forall other, In other season -> other <= year.
Proof.
  intros Hload.
  destruct (load_module_inv _ _ _ Hload)
    as (s0 & season & team_column & teams & rows
        & _ & Hs & Hnum & Hdata & Hteam & Hstr & _ & _).
  destruct (load_module_Ok _ _ _ Hload)
    as (s0' & season' & team_column' & teams' & _ & _ & _ & Hteam' & Hstr' & Htp & _).
  assert (Hdt : dict_get (data g) "Team" = Ok team_column).
  { rewrite Hdata, dict_get_dict_set. simpl. exact Hteam. }
  rewrite Hdt in Hteam'. injection Hteam' as <-.
  rewrite Hstr in Hstr'. injection Hstr' as <-.
  exists s0, season, team_column, teams.
  unfold historical_teams_of.
  assert (Hseason : dict_get (data g) "Season" = Ok s0).
  { rewrite Hdata, dict_get_dict_set. simpl. exact Hs. }
  rewrite Hseason. cbn [rbind]. rewrite Hnum. cbn [rbind].
  rewrite dict_get_select_rows, Hdt. cbn [rbind].
  rewrite (strings_select_series_eq _ _ _ Hstr). cbn [rbind].
  rewrite Htp. cbn [rbind strings].
  eexists. split; [assumption |]. split; [reflexivity |].
  split; [assumption |]. split; [assumption |]. split; [reflexivity |].
  split; [apply List.NoDup_filter, group_keys_NoDup |].
  intros team. rewrite List.filter_In, in_group_keys.
  pose proof (series_max_spec season) as Hmax.
  split.
  - intros [_ Hex]. apply existsb_exists in Hex as (x & Hx & Ex).
    apply String.eqb_eq in Ex as <-.
    apply in_select in Hx as (i & year & Hti & Hyi & Hy).
    exists i, year. split; [exact Hti |]. split; [exact Hyi |].
    destruct (series_max season) as [m |]; [| discriminate].
    apply Qeq_bool_iff in Hy. destruct Hmax as [_ Hall].
    intros other Ho. rewrite Hy. now apply Hall.
  - intros (i & year & Hti & Hyi & Hall). split.
    + eapply nth_error_In; eassumption.
    + apply existsb_exists. exists team. split; [| apply String.eqb_refl].
      apply in_select. exists i, year. split; [exact Hti |]. split; [exact Hyi |].
      destruct (series_max season) as [m |].
      * destruct Hmax as [Hm Hle]. apply Qeq_bool_iff.
        apply Qle_antisym; [apply Hle; eapply nth_error_In; eassumption | now apply Hall].
      * subst season. destruct i; discriminate.
Qed.

Lemma historical_teams_are_latest_season_witness :
  exists g historical_teams,
    load_module standings_sample = Ok ([], g) /\
    historical_teams_of g = Ok historical_teams /\
    In "C" historical_teams.
Proof.
  assert (Hload : exists g, load_module standings_sample = Ok ([], g)).
  { vm_compute. eexists. reflexivity. }
  destruct Hload as (g & Hload).
  destruct (historical_teams_are_latest_season standings_sample [] g Hload)
    as (sc & season & tc & teams & ht & Hs & Hn & Ht & Hstr & Hht & _ & Hiff).
  exists g, ht. split; [exact Hload |]. split; [exact Hht |].
  vm_compute in Hs. injection Hs as <-. vm_compute in Hn. injection Hn as <-.
  vm_compute in Ht. injection Ht as <-. vm_compute in Hstr. injection Hstr as <-.
  apply Hiff. exists 5%nat, 2020. split; [reflexivity |]. split; [reflexivity |].
  intros other Ho. simpl in Ho.
  repeat (destruct Ho as [<- | Ho]; [unfold Qle; simpl; lia |]). contradiction.
Defined.

(** ** [analyze_home_away] on the loaded profiles *)


